(** * Zerothlayer: history engine, commands, crop and selection gestures

    A shallow embedding of
      - [HistoryManager] (execute / undo / redo / canUndo / canRedo / clear),
      - the command classes [UploadImageAction], [CreateSelectionAction],
        [ModifySelectionAction], [ClearSelectionAction], [SetMaskAction],
        [ToggleMaskAction] and [CropAction],
      - the layer store's [setLayerMask] and [toggleLayerMask],
      - [Canvas.tsx]'s [crop] and the mouse handlers installed by
        [setupSelectionInteraction].

    Conventions.
      - A JavaScript [number] is an integer ([Z]): the embedded code only
        adds, subtracts, multiplies and compares canvas-pixel quantities.
      - A fabric object (a [Rect] or a [FabricImage]) is a reference: it is
        an [ObjId] into a heap holding the geometry fields the code reads and
        writes.  The same reference is shared by the canvas, by
        [selectionRectRef] and by the commands that captured it.
      - The fabric canvas is its object list, back to front: [add] pushes at
        the end, [remove] deletes the first occurrence and is silent when the
        object is absent, [clear] empties the list.
      - [canvas.bringObjectToFront] takes an object out of the list and
        pushes it at the end, unless it is the last one already.
      - Rendering calls, cursors and the selectable / evented flags carry no
        state of their own; what they allow is modelled where it happens:
        under the move tool fabric itself drags objects, which is the step
        [fabric_transform].
      - React runs the effect on [layers] after a handler has written the
        store; it is the function [layers_effect], and no handler contains
        it.  Mask preview mode is off, as it is when the store is created:
        the preview overlay is not on the canvas.
      - The 2D context of a mask canvas is its pixel buffer.  Masks are
        opaque and grey, one luminance per pixel; filling replaces, filling
        under the 'difference' operation takes the absolute difference,
        drawing an image at its own size copies it, and scaling is left to
        the browser.  PNG data URLs are opaque strings that the browser
        encodes and decodes.
      - The state is the one after the component has mounted: [fabricRef] and
        [historyRef] are set. *)

From stdpp Require Import gmap strings list fin_maps.
From Stdlib Require Import ZArith Lia.

Local Open Scope Z_scope.

Definition number := Z.
Definition ObjId := nat.

(** [a || d] on numbers: zero is falsy. *)
Definition num_or (a d : number) : number := if a =? 0 then d else a.

(** ** Arrays used as stacks *)

Definition push {A} (l : list A) (a : A) : list A := l ++ [a].
Definition pop {A} (l : list A) : option A * list A := (last l, removelast l).
Definition shift {A} (l : list A) : list A := tail l.

(** ** Layer store (src/lib/store.ts) *)

Module Mask.
Record t := mk { dataUrl : string; visible : bool }.
End Mask.

Module Layer.
(* the field [type] only ever holds the literal 'image' and is left out *)
Record t := mk {
  id : string;
  name : string;
  visible : bool;
  locked : bool;
  opacity : number;
  blendMode : string;
  canvasObjectId : option string;
  thumbnail : option string;
  mask : option Mask.t;
  filters : option (list (string * number))
}.

Definition with_mask (m : option Mask.t) (l : t) : t :=
  mk (id l) (name l) (visible l) (locked l) (opacity l) (blendMode l)
     (canvasObjectId l) (thumbnail l) m (filters l).
End Layer.

Definition string_eqb (a b : string) : bool := bool_decide (a = b).

Definition is_some {A} (o : option A) : bool :=
  match o with Some _ => true | None => false end.

(** Truthiness of a [string | null]: null and the empty string are falsy. *)
Definition truthy_str (o : option string) : bool :=
  match o with Some s => negb (string_eqb s "") | None => false end.

(** [setLayerMask]: the mapped function. *)
Definition setLayerMask1 (layerId : string) (maskDataUrl : option string)
    (l : Layer.t) : Layer.t :=
  if negb (string_eqb (Layer.id l) layerId) then l
  else match maskDataUrl with
       | None => Layer.with_mask None l
       | Some d => Layer.with_mask (Some (Mask.mk d true)) l
       end.

Definition setLayerMask (layerId : string) (maskDataUrl : option string)
    (layers : list Layer.t) : list Layer.t :=
  map (setLayerMask1 layerId maskDataUrl) layers.

(** [toggleLayerMask]: the mapped function. *)
Definition toggleLayerMask1 (layerId : string) (l : Layer.t) : Layer.t :=
  if negb (string_eqb (Layer.id l) layerId) || negb (is_some (Layer.mask l))
  then l
  else Layer.with_mask
         (option_map
            (fun m => Mask.mk (Mask.dataUrl m) (negb (Mask.visible m)))
            (Layer.mask l)) l.

Definition toggleLayerMask (layerId : string) (layers : list Layer.t)
    : list Layer.t :=
  map (toggleLayerMask1 layerId) layers.

(** ** Fabric objects and the canvas *)

Module FabricObject.
Record t := mk {
  left : number;
  top : number;
  scaleX : number;
  scaleY : number;
  width : number;
  height : number
}.

Definition set_left (v : number) (o : t) : t :=
  mk v (top o) (scaleX o) (scaleY o) (width o) (height o).
Definition set_top (v : number) (o : t) : t :=
  mk (left o) v (scaleX o) (scaleY o) (width o) (height o).
Definition set_size (w h : number) (o : t) : t :=
  mk (left o) (top o) (scaleX o) (scaleY o) w h.
End FabricObject.

Record DocumentOrigin := mkOrigin { ox : number; oy : number }.

Record SelectionData := mkSelectionData {
  sd_x : number; sd_y : number; sd_width : number; sd_height : number
}.

Inductive ActiveTool := ToolMove | ToolSelect | ToolCrop.

(** Everything the commands and handlers read or write, except the history
    stacks. *)
Record World := mkWorld {
  objects : list ObjId;                  (* canvas.getObjects() *)
  heap : gmap ObjId FabricObject.t;      (* fields of each fabric object *)
  nextId : ObjId;                        (* allocator of new Rect / FabricImage *)
  backgroundColor : string;              (* canvas.backgroundColor *)
  canvasWidth : number;                  (* canvas.width *)
  canvasHeight : number;                 (* canvas.height *)
  viewportTransform : list number;       (* canvas.viewportTransform *)
  documentOrigin : DocumentOrigin;       (* documentOriginRef.current *)
  layerMap : gmap string ObjId;          (* layerMapRef.current *)
  selectionRectRef : option ObjId;       (* selectionRectRef.current *)
  selection : option SelectionData;      (* last value given to onSelectionChange *)
  layers : list Layer.t;                 (* store: layers *)
  activeLayerId : option string;         (* store: activeLayerId *)
  activeTool : ActiveTool;               (* store: activeTool *)
  console : list string                  (* console.error messages, oldest first *)
}.

Definition with_objects (v : list ObjId) (w : World) : World :=
  mkWorld v (heap w) (nextId w) (backgroundColor w) (canvasWidth w)
    (canvasHeight w) (viewportTransform w) (documentOrigin w) (layerMap w) (selectionRectRef w)
    (selection w) (layers w) (activeLayerId w) (activeTool w) (console w).
Definition with_heap (v : gmap ObjId FabricObject.t) (w : World) : World :=
  mkWorld (objects w) v (nextId w) (backgroundColor w) (canvasWidth w)
    (canvasHeight w) (viewportTransform w) (documentOrigin w) (layerMap w) (selectionRectRef w)
    (selection w) (layers w) (activeLayerId w) (activeTool w) (console w).
Definition with_nextId (v : ObjId) (w : World) : World :=
  mkWorld (objects w) (heap w) v (backgroundColor w) (canvasWidth w)
    (canvasHeight w) (viewportTransform w) (documentOrigin w) (layerMap w) (selectionRectRef w)
    (selection w) (layers w) (activeLayerId w) (activeTool w) (console w).
Definition with_backgroundColor (v : string) (w : World) : World :=
  mkWorld (objects w) (heap w) (nextId w) v (canvasWidth w)
    (canvasHeight w) (viewportTransform w) (documentOrigin w) (layerMap w) (selectionRectRef w)
    (selection w) (layers w) (activeLayerId w) (activeTool w) (console w).
Definition with_layerMap (v : gmap string ObjId) (w : World) : World :=
  mkWorld (objects w) (heap w) (nextId w) (backgroundColor w) (canvasWidth w)
    (canvasHeight w) (viewportTransform w) (documentOrigin w) v (selectionRectRef w)
    (selection w) (layers w) (activeLayerId w) (activeTool w) (console w).
Definition with_selectionRectRef (v : option ObjId) (w : World) : World :=
  mkWorld (objects w) (heap w) (nextId w) (backgroundColor w) (canvasWidth w)
    (canvasHeight w) (viewportTransform w) (documentOrigin w) (layerMap w) v
    (selection w) (layers w) (activeLayerId w) (activeTool w) (console w).
Definition with_selection (v : option SelectionData) (w : World) : World :=
  mkWorld (objects w) (heap w) (nextId w) (backgroundColor w) (canvasWidth w)
    (canvasHeight w) (viewportTransform w) (documentOrigin w) (layerMap w) (selectionRectRef w)
    v (layers w) (activeLayerId w) (activeTool w) (console w).
Definition with_layers (v : list Layer.t) (w : World) : World :=
  mkWorld (objects w) (heap w) (nextId w) (backgroundColor w) (canvasWidth w)
    (canvasHeight w) (viewportTransform w) (documentOrigin w) (layerMap w) (selectionRectRef w)
    (selection w) v (activeLayerId w) (activeTool w) (console w).
Definition with_console (v : list string) (w : World) : World :=
  mkWorld (objects w) (heap w) (nextId w) (backgroundColor w) (canvasWidth w)
    (canvasHeight w) (viewportTransform w) (documentOrigin w) (layerMap w) (selectionRectRef w)
    (selection w) (layers w) (activeLayerId w) (activeTool w) v.

(** *** Canvas collaborator *)

Fixpoint remove_first (x : ObjId) (l : list ObjId) : list ObjId :=
  match l with
  | [] => []
  | y :: l' => if Nat.eqb x y then l' else y :: remove_first x l'
  end.

Definition canvas_add (o : ObjId) (w : World) : World :=
  with_objects (push (objects w) o) w.
Definition canvas_remove (o : ObjId) (w : World) : World :=
  with_objects (remove_first o (objects w)) w.
Definition canvas_clear (w : World) : World := with_objects [] w.

(** [obj.set(...)] on a live reference. *)
Definition obj_set (o : ObjId) (f : FabricObject.t -> FabricObject.t)
    (w : World) : World :=
  with_heap (alter f o (heap w)) w.

(** Reading a numeric field of a reference; an absent field reads as the
    falsy value. *)
Definition obj_get (o : ObjId) (f : FabricObject.t -> number) (w : World)
    : number :=
  match heap w !! o with Some g => f g | None => 0 end.

(** *** Callbacks wired in Canvas.tsx *)

(** [getSelectionData] (the screen coordinates, which come from the DOM
    layout, are not part of the model). *)
Definition getSelectionData (w : World) : option SelectionData :=
  match selectionRectRef w with
  | None => None
  | Some r =>
      Some (mkSelectionData
              (obj_get r FabricObject.left w)
              (obj_get r FabricObject.top w)
              (obj_get r FabricObject.width w * obj_get r FabricObject.scaleX w)
              (obj_get r FabricObject.height w * obj_get r FabricObject.scaleY w))
  end.

(** [handleSelectionChangeInternal]. *)
Definition handleSelectionChangeInternal (sel : option ObjId)
    (data : option SelectionData) (w : World) : World :=
  with_selection data (with_selectionRectRef sel w).

(** ** Commands (src/lib/history) *)

Module CropAction.
(* The fields of the class.  The callbacks [setCanvasSize] and
   [setDocumentOrigin] are stored by the constructor and called by no
   method; they hold no data and have no field here. *)
Record t := mk {
  oldViewportTransform : list number;
  newViewportTransform : list number;
  oldWidth : number;
  oldHeight : number;
  newWidth : number;
  newHeight : number;
  oldDocOrigin : DocumentOrigin;
  newDocOrigin : DocumentOrigin;
  objectPositions : list (ObjId * number * number);
  cropOffsetX : number;
  cropOffsetY : number;
  previousImage : option ObjId;
  newImage : option ObjId;
  activeLayerId : option string;
  selection : ObjId
}.

(** [attachImages]. *)
Definition attachImages (prev next : option ObjId) (c : t) : t :=
  mk (oldViewportTransform c) (newViewportTransform c) (oldWidth c)
     (oldHeight c) (newWidth c) (newHeight c) (oldDocOrigin c)
     (newDocOrigin c) (objectPositions c) (cropOffsetX c) (cropOffsetY c)
     prev next (activeLayerId c) (selection c).
End CropAction.

Inductive Action :=
| UploadImageAction (previousImage previousSelection : option ObjId)
    (newImage : ObjId)
| CreateSelectionAction (selection : ObjId) (previousSelection : option ObjId)
| ModifySelectionAction (selection : ObjId)
    (previousState newState : FabricObject.t)
| ClearSelectionAction (selection : ObjId)
| SetMaskAction (layerId : string) (oldMaskData newMaskData : option string)
| ToggleMaskAction (layerId : string)
| CropAction (c : CropAction.t).

(** The [SetMaskAction] constructor stores [oldMaskData || null]. *)
Definition new_SetMaskAction (layerId : string) (oldMaskData : option string)
    (newMaskData : option string) : Action :=
  SetMaskAction layerId
    (if truthy_str oldMaskData then oldMaskData else None) newMaskData.

(** [UploadImageAction] has no caller in the sources: its [onSelectionChange]
    is taken to store the rectangle like [handleSelectionChangeInternal]
    does, and [onImageChange] to be a notification without effect on the
    modelled state. *)
Definition upload_onSelectionChange (sel : option ObjId) (w : World) : World :=
  with_selectionRectRef sel w.

Definition default_background : string := "#f4f4f5".

(** The image swap of [CropAction.execute] and [CropAction.undo], which
    differ only in the direction: when both images are attached, take one
    off the canvas, add the other, and bind the layer (if any) to it. *)
Definition crop_swap (remove_img add_img : option ObjId)
    (layer : option string) (w : World) : World :=
  match remove_img, add_img with
  | Some r, Some a =>
      let w := canvas_add a (canvas_remove r w) in
      match layer with
      | Some l =>
          if truthy_str layer
          then with_layerMap (<[l := a]> (layerMap w)) w
          else w
      | None => w
      end
  | _, _ => w
  end.

(** [action.execute()]. *)
Definition exec_action (a : Action) (w : World) : World :=
  match a with
  | UploadImageAction _ _ newImage =>
      let w := canvas_clear w in
      let w := with_backgroundColor default_background w in
      let w := canvas_add newImage w in
      upload_onSelectionChange None w
  | CreateSelectionAction sel previousSelection =>
      let w := match previousSelection with
               | Some p => canvas_remove p w
               | None => w
               end in
      let w := canvas_add sel w in
      handleSelectionChangeInternal (Some sel) (getSelectionData w) w
  | ModifySelectionAction sel _ newState =>
      let w := obj_set sel (fun _ => newState) w in
      handleSelectionChangeInternal (Some sel) (getSelectionData w) w
  | ClearSelectionAction sel =>
      let w := canvas_remove sel w in
      handleSelectionChangeInternal None None w
  | SetMaskAction layerId _ newMaskData =>
      with_layers (setLayerMask layerId newMaskData (layers w)) w
  | ToggleMaskAction layerId =>
      with_layers (toggleLayerMask layerId (layers w)) w
  | CropAction c =>
      let w := canvas_remove (CropAction.selection c) w in
      let w := handleSelectionChangeInternal None None w in
      crop_swap (CropAction.previousImage c) (CropAction.newImage c)
        (CropAction.activeLayerId c) w
  end.

(** [action.undo()]. *)
Definition undo_action (a : Action) (w : World) : World :=
  match a with
  | UploadImageAction previousImage previousSelection _ =>
      let w := canvas_clear w in
      let w := with_backgroundColor default_background w in
      match previousImage with
      | Some p =>
          let w := canvas_add p w in
          let w := match previousSelection with
                   | Some s => canvas_add s w
                   | None => w
                   end in
          upload_onSelectionChange previousSelection w
      | None => upload_onSelectionChange None w
      end
  | CreateSelectionAction sel previousSelection =>
      let w := canvas_remove sel w in
      match previousSelection with
      | Some p =>
          let w := canvas_add p w in
          handleSelectionChangeInternal (Some p) (getSelectionData w) w
      | None => handleSelectionChangeInternal None None w
      end
  | ModifySelectionAction sel previousState _ =>
      let w := obj_set sel (fun _ => previousState) w in
      handleSelectionChangeInternal (Some sel) (getSelectionData w) w
  | ClearSelectionAction sel =>
      let w := canvas_add sel w in
      handleSelectionChangeInternal (Some sel) None w
  | SetMaskAction layerId oldMaskData _ =>
      with_layers (setLayerMask layerId oldMaskData (layers w)) w
  | ToggleMaskAction layerId =>
      with_layers (toggleLayerMask layerId (layers w)) w
  | CropAction c =>
      let w := crop_swap (CropAction.newImage c) (CropAction.previousImage c)
                 (CropAction.activeLayerId c) w in
      let sel := CropAction.selection c in
      let w := canvas_add sel w in
      let selData :=
        mkSelectionData
          (num_or (obj_get sel FabricObject.left w) 0)
          (num_or (obj_get sel FabricObject.top w) 0)
          (num_or (obj_get sel FabricObject.width w) 0
           * num_or (obj_get sel FabricObject.scaleX w) 1)
          (num_or (obj_get sel FabricObject.height w) 0
           * num_or (obj_get sel FabricObject.scaleY w) 1) in
      handleSelectionChangeInternal (Some sel) (Some selData) w
  end.

(** ** History engine (HistoryManager) *)

Record State := mkState {
  world : World;
  undoStack : list Action;
  redoStack : list Action;
  maxHistorySize : number;
  historyEvents : list (bool * bool)   (* onHistoryChange(canUndo, canRedo) calls *)
}.

Definition canUndo (s : State) : bool := (0 <? Z.of_nat (length (undoStack s))).
Definition canRedo (s : State) : bool := (0 <? Z.of_nat (length (redoStack s))).

(** [notifyChange], with the callback installed by Canvas.tsx. *)
Definition notifyChange (s : State) : State :=
  mkState (world s) (undoStack s) (redoStack s) (maxHistorySize s)
    (push (historyEvents s) (canUndo s, canRedo s)).

(** [new HistoryManager(maxHistorySize)] next to a given world. *)
Definition new_HistoryManager (maxSize : number) (w : World) : State :=
  mkState w [] [] maxSize [].

Definition execute (action : Action) (s : State) : State :=
  let w := exec_action action (world s) in
  let u := push (undoStack s) action in
  let u := if maxHistorySize s <? Z.of_nat (length u) then shift u else u in
  notifyChange (mkState w u [] (maxHistorySize s) (historyEvents s)).

Definition undo (s : State) : State :=
  match pop (undoStack s) with
  | (Some action, rest) =>
      notifyChange
        (mkState (undo_action action (world s)) rest
           (push (redoStack s) action) (maxHistorySize s) (historyEvents s))
  | (None, _) => s
  end.

Definition redo (s : State) : State :=
  match pop (redoStack s) with
  | (Some action, rest) =>
      notifyChange
        (mkState (exec_action action (world s)) (push (undoStack s) action)
           rest (maxHistorySize s) (historyEvents s))
  | (None, _) => s
  end.

Definition clear (s : State) : State :=
  notifyChange (mkState (world s) [] [] (maxHistorySize s) (historyEvents s)).

Definition with_world (w : World) (s : State) : State :=
  mkState w (undoStack s) (redoStack s) (maxHistorySize s) (historyEvents s).

(** ** Canvas.tsx: crop *)

(** [getActiveImageObject]. *)
Definition getActiveImageObject (w : World) : option ObjId :=
  if truthy_str (activeLayerId w) then
    match activeLayerId w with
    | Some l => layerMap w !! l
    | None => None
    end
  else None.

(** Allocation of a fresh fabric object with the given fields. *)
Definition alloc (g : FabricObject.t) (w : World) : ObjId * World :=
  (nextId w, with_nextId (S (nextId w)) (with_heap (<[nextId w := g]> (heap w)) w)).

Definition invalid_crop_message : string := "Invalid crop dimensions".

(** [crop(width, height, x, y)], taken as one step: the image decoded from
    the exported region is a fresh object of the exported size, placed at
    the crop rectangle's corner. *)
Definition crop (width height x y : number) (s : State) : State :=
  match selectionRectRef (world s) with
  | None => s
  | Some sel =>
      if (width <=? 0) || (height <=? 0) then
        with_world
          (with_console (push (console (world s)) invalid_crop_message) (world s)) s
      else
        let w := world s in
        let activeImg := getActiveImageObject w in
        let oldWidth := canvasWidth w in
        let oldHeight := canvasHeight w in
        let oldVpt := viewportTransform w in
        let oldDocOrigin := documentOrigin w in
        let cropOffsetX := x in
        let cropOffsetY := y in
        let newDocOrigin :=
          mkOrigin (ox oldDocOrigin + cropOffsetX) (oy oldDocOrigin + cropOffsetY) in
        let objectPositions :=
          map (fun o => (o, num_or (obj_get o FabricObject.left w) 0,
                            num_or (obj_get o FabricObject.top w) 0))
              (List.filter (fun o => negb (Nat.eqb o sel)) (objects w)) in
        let '(prevImg, newImg, w) :=
          match activeImg with
          | Some img =>
              let '(n, w) := alloc (FabricObject.mk x y 1 1 width height) w in
              (Some img, Some n, w)
          | None => (None, None, w)
          end in
        let newVpt := oldVpt in
        let w := with_selectionRectRef None w in
        let action :=
          CropAction.mk oldVpt newVpt oldWidth oldHeight width height
            oldDocOrigin newDocOrigin objectPositions cropOffsetX cropOffsetY
            None None (activeLayerId w) sel in
        let action :=
          if is_some prevImg || is_some newImg
          then CropAction.attachImages prevImg newImg action
          else action in
        execute (CropAction action) (with_world w s)
  end.

(** ** Canvas.tsx: setupSelectionInteraction *)

Record Editor := mkEditor {
  st : State;
  isDrawing : bool;
  startX : number;
  startY : number;
  tempSelection : option ObjId;                   (* canvas._tempSelection.rect *)
  selectionBeforeModifyRef : option FabricObject.t
}.

Definition with_st (s : State) (e : Editor) : Editor :=
  mkEditor s (isDrawing e) (startX e) (startY e) (tempSelection e)
    (selectionBeforeModifyRef e).

Definition tool_draws (t : ActiveTool) : bool :=
  match t with ToolSelect | ToolCrop => true | ToolMove => false end.

(** The "mouse:down" handler; [target] is what [canvas.findTarget] answers
    for the event and [px], [py] what [canvas.getPointer] answers. *)
Definition mouse_down (px py : number) (target : option ObjId) (e : Editor)
    : Editor :=
  let w := world (st e) in
  if negb (tool_draws (activeTool w)) then e
  else match getActiveImageObject w with
  | None => e
  | Some _ =>
      let hit :=
        match target, selectionRectRef w with
        | Some t, Some sel => if Nat.eqb t sel then Some sel else None
        | _, _ => None
        end in
      match hit with
      | Some sel =>
          mkEditor (st e) (isDrawing e) (startX e) (startY e) (tempSelection e)
            (Some (FabricObject.mk
                     (num_or (obj_get sel FabricObject.left w) 0)
                     (num_or (obj_get sel FabricObject.top w) 0)
                     (num_or (obj_get sel FabricObject.scaleX w) 1)
                     (num_or (obj_get sel FabricObject.scaleY w) 1)
                     (num_or (obj_get sel FabricObject.width w) 0)
                     (num_or (obj_get sel FabricObject.height w) 0)))
      | None =>
          let w := match selectionRectRef w with
                   | Some sel =>
                       with_selection None
                         (with_selectionRectRef None (canvas_remove sel w))
                   | None => w
                   end in
          let '(rect, w) := alloc (FabricObject.mk px py 1 1 0 0) w in
          let w := canvas_add rect w in
          mkEditor (with_world w (st e)) true px py (Some rect)
            (selectionBeforeModifyRef e)
      end
  end.

(** The "mouse:move" handler. *)
Definition mouse_move (px py : number) (e : Editor) : Editor :=
  match isDrawing e, tempSelection e with
  | true, Some rect =>
      let w := world (st e) in
      let width := px - startX e in
      let height := py - startY e in
      let '(w, width) :=
        if width <? 0
        then (obj_set rect (FabricObject.set_left px) w, Z.abs width)
        else (w, width) in
      let '(w, height) :=
        if height <? 0
        then (obj_set rect (FabricObject.set_top py) w, Z.abs height)
        else (w, height) in
      let w := obj_set rect (FabricObject.set_size width height) w in
      with_st (with_world w (st e)) e
  | _, _ => e
  end.

(** The "mouse:up" handler. *)
Definition mouse_up (e : Editor) : Editor :=
  match isDrawing e, tempSelection e with
  | true, Some rect =>
      let w := world (st e) in
      let s :=
        if (num_or (obj_get rect FabricObject.width w) 0 <? 5)
           || (num_or (obj_get rect FabricObject.height w) 0 <? 5)
        then with_world (canvas_remove rect w) (st e)
        else
          let w := with_selectionRectRef (Some rect) w in
          let action := CreateSelectionAction rect None in
          let w := canvas_remove rect w in
          execute action (with_world w (st e)) in
      mkEditor s false (startX e) (startY e) None (selectionBeforeModifyRef e)
  | _, _ => e
  end.

(** ** Sequences of history operations *)

Inductive Op := OpExecute (a : Action) | OpUndo | OpRedo | OpClear.

Definition step (s : State) (o : Op) : State :=
  match o with
  | OpExecute a => execute a s
  | OpUndo => undo s
  | OpRedo => redo s
  | OpClear => clear s
  end.

Definition run (ops : list Op) (s : State) : State := fold_left step ops s.

(** A walk over the stacks: [true] is an undo, [false] a redo. *)
Definition walk (moves : list bool) (s : State) : State :=
  run (map (fun b : bool => if b then OpUndo else OpRedo) moves) s.

Definition execute_all (cs : list Action) (s : State) : State :=
  run (map OpExecute cs) s.

(** Number of [undo] calls made since the last [execute] or [clear], on top
    of [acc] made before the list starts. *)
Fixpoint undos_since_execute (ops : list Op) (acc : nat) : nat :=
  match ops with
  | [] => acc
  | OpUndo :: r => undos_since_execute r (S acc)
  | OpRedo :: r => undos_since_execute r acc
  | OpExecute _ :: r | OpClear :: r => undos_since_execute r 0
  end.

(** ** Definitions used by the statements *)

(** The two stacks together never hold more than [maxHistorySize] entries. *)
Definition within_bound (s : State) : Prop :=
  Z.of_nat (length (undoStack s) + length (redoStack s)) <= maxHistorySize s.

(** Some layer carries the given id and has a mask. *)
Definition has_masked_target (layerId : string) (ls : list Layer.t) : bool :=
  existsb (fun l => string_eqb (Layer.id l) layerId && is_some (Layer.mask l)) ls.

Definition masked_layer : Layer.t :=
  Layer.mk "L1" "a.png" true false 1 "normal" None None
    (Some (Mask.mk "data:mask" true)) None.

Definition one_layer_world : World :=
  mkWorld [0%nat] {[ 0%nat := FabricObject.mk 0 0 1 1 1000 800 ]} 1%nat
    default_background 1000 800 [1; 0; 0; 1; 0; 0] (mkOrigin 0 0)
    {[ "L1"%string := 0%nat ]} None None [masked_layer] (Some "L1"%string)
    ToolSelect [].

Definition fresh_editor : Editor :=
  mkEditor (new_HistoryManager 50 one_layer_world) false 0 0 None None.

(** Anchor at (100,100), pointer to (90,90), then to (120,120). *)
Definition drag_back : Editor :=
  mouse_move 120 120 (mouse_move 90 90 (mouse_down 100 100 None fresh_editor)).

(** A 3-by-3 drag and a 10-by-10 drag on a one-image document. *)
Definition drag_3x3 : Editor :=
  mouse_move 103 103 (mouse_down 100 100 None fresh_editor).
Definition drag_10x10 : Editor :=
  mouse_move 110 110 (mouse_down 100 100 None fresh_editor).

(** Canvas dimensions and document origin. *)
Definition frame (w : World) : number * number * DocumentOrigin :=
  (canvasWidth w, canvasHeight w, documentOrigin w).

(** The command built by [crop] for a valid rectangle. *)
Definition crop_command (width height x y : number) (s : State)
    (sel : ObjId) : CropAction.t :=
  let w := world s in
  let positions :=
    map (fun o => (o, num_or (obj_get o FabricObject.left w) 0,
                      num_or (obj_get o FabricObject.top w) 0))
        (List.filter (fun o => negb (Nat.eqb o sel)) (objects w)) in
  CropAction.mk (viewportTransform w) (viewportTransform w)
    (canvasWidth w) (canvasHeight w) width height
    (documentOrigin w)
    (mkOrigin (ox (documentOrigin w) + x) (oy (documentOrigin w) + y))
    positions x y
    (getActiveImageObject w)
    (match getActiveImageObject w with
     | Some _ => Some (nextId w)
     | None => None
     end)
    (activeLayerId w) sel.

(** A 1000 x 800 document with one image and the selection (100,50,400,300). *)
Definition selected_world : World :=
  mkWorld [0%nat; 1%nat]
    {[ 0%nat := FabricObject.mk 0 0 1 1 1000 800;
       1%nat := FabricObject.mk 100 50 1 1 400 300 ]} 2%nat
    default_background 1000 800 [1; 0; 0; 1; 0; 0] (mkOrigin 0 0)
    {[ "L1"%string := 0%nat ]} (Some 1%nat)
    (Some (mkSelectionData 100 50 400 300)) [masked_layer]
    (Some "L1"%string) ToolCrop [].

Definition selected_state : State := new_HistoryManager 50 selected_world.

(** The drawable graph (object list and object fields), the layer bindings
    and the document origin. *)
Definition doc (w : World)
    : list ObjId * gmap ObjId FabricObject.t * gmap string ObjId * DocumentOrigin :=
  (objects w, heap w, layerMap w, documentOrigin w).

Fixpoint exec_actions (cs : list Action) (w : World) : World :=
  match cs with
  | [] => w
  | c :: cs' => exec_actions cs' (exec_action c w)
  end.


(** The command, undone right after it ran on [w], gives back the graph,
    bindings and origin of [w]. *)
Definition reversible (c : Action) (w : World) : Prop :=
  doc (undo_action c (exec_action c w)) = doc w.


(** ** Layer store: the remaining actions (src/lib/store.ts) *)

Module LayerState.
(* The store's data: the fields of [LayerState] that are not actions. *)
Record t := mk {
  layers : list Layer.t;
  activeLayerId : option string;
  activeTool : ActiveTool;
  maskPreviewMode : bool
}.
End LayerState.

Module LayerData.
(* [Omit<Layer, 'id' | 'visible' | 'locked' | 'opacity' | 'blendMode'>]. *)
Record t := mk {
  name : string;
  canvasObjectId : option string;
  thumbnail : option string;
  mask : option Mask.t;
  filters : option (list (string * number))
}.
End LayerData.

Module LayerUpdate.
(* [Partial<Layer>]: [None] is a key that is absent from the object.  For
   the optional fields the inner option is the value given to the key. *)
Record t := mk {
  id : option string;
  name : option string;
  visible : option bool;
  locked : option bool;
  opacity : option number;
  blendMode : option string;
  canvasObjectId : option (option string);
  thumbnail : option (option string);
  mask : option (option Mask.t);
  filters : option (option (list (string * number)))
}.

Definition empty : t := mk None None None None None None None None None None.
Definition set_visible (v : bool) : t :=
  mk None None (Some v) None None None None None None None.
Definition set_locked (v : bool) : t :=
  mk None None None (Some v) None None None None None None.
End LayerUpdate.

(** [{ ...l, ...updates }]. *)
Definition spread_updates (l : Layer.t) (u : LayerUpdate.t) : Layer.t :=
  Layer.mk
    (default (Layer.id l) (LayerUpdate.id u))
    (default (Layer.name l) (LayerUpdate.name u))
    (default (Layer.visible l) (LayerUpdate.visible u))
    (default (Layer.locked l) (LayerUpdate.locked u))
    (default (Layer.opacity l) (LayerUpdate.opacity u))
    (default (Layer.blendMode l) (LayerUpdate.blendMode u))
    (default (Layer.canvasObjectId l) (LayerUpdate.canvasObjectId u))
    (default (Layer.thumbnail l) (LayerUpdate.thumbnail u))
    (default (Layer.mask l) (LayerUpdate.mask u))
    (default (Layer.filters l) (LayerUpdate.filters u)).

(** [addLayer]; [uuid] is what [uuidv4()] answers.  The result is the new
    id and the new state. *)
Definition addLayer (layerData : LayerData.t) (uuid : string)
    (s : LayerState.t) : string * LayerState.t :=
  let newLayer :=
    Layer.mk uuid (LayerData.name layerData) true false 1 "normal"
      (LayerData.canvasObjectId layerData) (LayerData.thumbnail layerData)
      (LayerData.mask layerData) (LayerData.filters layerData) in
  (Layer.id newLayer,
   LayerState.mk (newLayer :: LayerState.layers s) (Some (Layer.id newLayer))
     (LayerState.activeTool s) (LayerState.maskPreviewMode s)).

(** [removeLayer]. *)
Definition removeLayer (id : string) (s : LayerState.t) : LayerState.t :=
  let newLayers :=
    List.filter (fun l => negb (string_eqb (Layer.id l) id))
      (LayerState.layers s) in
  let newActiveId :=
    match LayerState.activeLayerId s with
    | Some a =>
        if string_eqb a id
        then match newLayers with
             | l :: _ => Some (Layer.id l)
             | [] => None
             end
        else Some a
    | None => None
    end in
  LayerState.mk newLayers newActiveId (LayerState.activeTool s)
    (LayerState.maskPreviewMode s).

(** [updateLayer], on the layer list. *)
Definition updateLayer (id : string) (updates : LayerUpdate.t)
    (layers : list Layer.t) : list Layer.t :=
  map (fun l => if string_eqb (Layer.id l) id then spread_updates l updates else l)
      layers.

(** [Array.prototype.splice]'s start index for an array of length [len]:
    a negative start counts from the end, and the result is clamped to
    [0..len]. *)
Definition splice_start (start : number) (len : nat) : nat :=
  if start <? 0
  then Z.to_nat (Z.max (Z.of_nat len + start) 0)
  else Nat.min (Z.to_nat start) len.

(** [reorderLayers], on the layer list.  When [fromIndex] points past the
    end nothing is removed, [movedLayer] is [undefined] and the list would
    receive that [undefined] as an entry: this outcome is [None]. *)
Definition reorderLayers (fromIndex toIndex : number) (layers : list Layer.t)
    : option (list Layer.t) :=
  let i := splice_start fromIndex (length layers) in
  match layers !! i with
  | Some movedLayer =>
      let newLayers := delete i layers in
      let j := splice_start toIndex (length newLayers) in
      Some (take j newLayers ++ movedLayer :: drop j newLayers)
  | None => None
  end.

(** A plain object used as a string-keyed record, as [filters] is: assigning
    a key replaces the value in place when the key exists and appends the
    key otherwise. *)
Fixpoint object_assign (k : string) (v : number) (o : list (string * number))
    : list (string * number) :=
  match o with
  | [] => [(k, v)]
  | (k', v') :: o' =>
      if string_eqb k' k then (k, v) :: o' else (k', v') :: object_assign k v o'
  end.

Fixpoint object_get (k : string) (o : list (string * number)) : option number :=
  match o with
  | [] => None
  | (k', v') :: o' => if string_eqb k' k then Some v' else object_get k o'
  end.

Definition with_filters (f : option (list (string * number))) (l : Layer.t)
    : Layer.t :=
  Layer.mk (Layer.id l) (Layer.name l) (Layer.visible l) (Layer.locked l)
    (Layer.opacity l) (Layer.blendMode l) (Layer.canvasObjectId l)
    (Layer.thumbnail l) (Layer.mask l) f.

Definition with_thumbnail (t : option string) (l : Layer.t) : Layer.t :=
  Layer.mk (Layer.id l) (Layer.name l) (Layer.visible l) (Layer.locked l)
    (Layer.opacity l) (Layer.blendMode l) (Layer.canvasObjectId l)
    t (Layer.mask l) (Layer.filters l).

(** [setLayerFilter], on the layer list. *)
Definition setLayerFilter (layerId filterName : string) (value : number)
    (layers : list Layer.t) : list Layer.t :=
  map (fun l =>
         if negb (string_eqb (Layer.id l) layerId) then l
         else with_filters
                (Some (object_assign filterName value
                         (default [] (Layer.filters l)))) l)
      layers.

(** [setLayerThumbnail], on the layer list. *)
Definition setLayerThumbnail (layerId thumbnailDataUrl : string)
    (layers : list Layer.t) : list Layer.t :=
  map (fun l =>
         if string_eqb (Layer.id l) layerId
         then with_thumbnail (Some thumbnailDataUrl) l else l)
      layers.

(** The eye and lock buttons of LayerPanel.tsx for the row at [index]. *)
Definition click_eye (index : nat) (layers : list Layer.t) : list Layer.t :=
  match layers !! index with
  | Some layer =>
      updateLayer (Layer.id layer)
        (LayerUpdate.set_visible (negb (Layer.visible layer))) layers
  | None => layers
  end.

Definition click_lock (index : nat) (layers : list Layer.t) : list Layer.t :=
  match layers !! index with
  | Some layer =>
      updateLayer (Layer.id layer)
        (LayerUpdate.set_locked (negb (Layer.locked layer))) layers
  | None => layers
  end.

(** The ids of a layer list, and the store's well-formedness: ids are
    distinct and the active id, when set, names a layer. *)
Definition layer_ids (layers : list Layer.t) : list string :=
  map Layer.id layers.

Definition store_ok (s : LayerState.t) : Prop :=
  List.NoDup (layer_ids (LayerState.layers s))
  /\ match LayerState.activeLayerId s with
     | Some a => In a (layer_ids (LayerState.layers s))
     | None => True
     end.

(** A sample store. *)
Definition two_layers : list Layer.t :=
  [Layer.mk "A" "a.png" true false 1 "normal" None None None None;
   Layer.mk "B" "b.png" false false 1 "normal" None None
     (Some (Mask.mk "data:m" false)) None].

Definition two_layer_store : LayerState.t :=
  LayerState.mk two_layers (Some "A"%string) ToolMove false.

(** ** History engine: further definitions *)

(** The last [onHistoryChange] notification agrees with the stacks; when no
    notification was ever sent, both stacks are empty. *)
Definition notified_ok (s : State) : Prop :=
  match last (historyEvents s) with
  | Some ev => ev = (canUndo s, canRedo s)
  | None => undoStack s = [] /\ redoStack s = []
  end.

(** The commands of the [execute] calls of an operation list, in order. *)
Fixpoint executed (ops : list Op) : list Action :=
  match ops with
  | [] => []
  | OpExecute a :: r => a :: executed r
  | _ :: r => executed r
  end.

(** ** Canvas.tsx: selection clearing, mask commands, selection drags *)

(** [clearSelectionWithHistory]. *)
Definition clearSelectionWithHistory (s : State) : State :=
  match selectionRectRef (world s) with
  | Some sel => execute (ClearSelectionAction sel) s
  | None => s
  end.

(** [layers.find(l => l.id === id)]. *)
Definition find_layer (id : string) (layers : list Layer.t) : option Layer.t :=
  List.find (fun l => string_eqb (Layer.id l) id) layers.

(** [layers.find(l => l.id === activeLayerIdRef.current)?.mask?.dataUrl]. *)
Definition active_mask_dataUrl (w : World) : option string :=
  match activeLayerId w with
  | Some a =>
      match find_layer a (layers w) with
      | Some l => option_map Mask.dataUrl (Layer.mask l)
      | None => None
      end
  | None => None
  end.

(** [applyMaskAction]; [layers] is the layer list of the component's
    current render. *)
Definition applyMaskAction (newMaskData : option string) (s : State) : State :=
  if truthy_str (activeLayerId (world s)) then
    match activeLayerId (world s) with
    | Some a =>
        execute
          (new_SetMaskAction a (active_mask_dataUrl (world s)) newMaskData) s
    | None => s
    end
  else s.

Inductive MaskOperation := MaskFromSelection | MaskInvert | MaskFeather.

(** Truthiness of an optional number: [undefined] and [0] are falsy. *)
Definition truthy_num (o : option number) : bool :=
  match o with Some n => negb (n =? 0) | None => false end.

(** [generateMaskData].  The pixels are drawn and encoded by the browser:
    [rendered] is the PNG data URL that [maskCanvas.toDataURL] answers for
    the drawing, or [None] when no 2D context is available or the drawing
    throws.  The function itself decides when to draw at all. *)
Definition generateMaskData (operation : MaskOperation)
    (featherAmount : option number) (rendered : option string) (w : World)
    : option string :=
  if negb (truthy_str (activeLayerId w)) then None
  else match operation with
       | MaskFromSelection =>
           match selectionRectRef w with
           | None => None
           | Some _ => rendered
           end
       | MaskInvert =>
           if negb (truthy_str (active_mask_dataUrl w)) then None
           else rendered
       | MaskFeather =>
           if negb (truthy_str (active_mask_dataUrl w))
              || negb (truthy_num featherAmount)
           then None
           else rendered
       end.

(** [invertMask]. *)
Definition invertMask (rendered : option string) (s : State) : State :=
  let data := generateMaskData MaskInvert None rendered (world s) in
  if truthy_str data then applyMaskAction data s else s.

(** [featherMask]. *)
Definition featherMask (amount : number) (rendered : option string)
    (s : State) : State :=
  let data := generateMaskData MaskFeather (Some amount) rendered (world s) in
  if truthy_str data then applyMaskAction data s else s.

(** [createMaskFromSelection] (the loading flag is not modelled).  The
    handler itself leaves the canvas to the two commands it runs; the store
    write of the first one makes React run [layers_effect] afterwards,
    which re-stacks the canvas. *)
Definition createMaskFromSelection (rendered : option string) (s : State)
    : State :=
  let data := generateMaskData MaskFromSelection None rendered (world s) in
  if truthy_str data
  then clearSelectionWithHistory (applyMaskAction data s)
  else s.

(** The "object:modified" handler; [target] is [options.target]. *)
Definition object_modified (target : option ObjId) (e : Editor) : Editor :=
  let w := world (st e) in
  match target, selectionRectRef w, selectionBeforeModifyRef e with
  | Some t, Some sel, Some before =>
      if Nat.eqb t sel then
        let newState :=
          FabricObject.mk
            (num_or (obj_get sel FabricObject.left w) 0)
            (num_or (obj_get sel FabricObject.top w) 0)
            (num_or (obj_get sel FabricObject.scaleX w) 1)
            (num_or (obj_get sel FabricObject.scaleY w) 1)
            (num_or (obj_get sel FabricObject.width w) 0)
            (num_or (obj_get sel FabricObject.height w) 0) in
        let s := execute (ModifySelectionAction sel before newState) (st e) in
        mkEditor s (isDrawing e) (startX e) (startY e) (tempSelection e) None
      else e
  | _, _, _ => e
  end.

(** What fabric does between "mouse:down" on the selection rectangle and
    "object:modified": it moves or scales the rectangle, writing new fields
    to the live object. *)
Definition fabric_transform (sel : ObjId) (g : FabricObject.t) (e : Editor)
    : Editor :=
  with_st (with_world (obj_set sel (fun _ => g) (world (st e))) (st e)) e.

(** A document whose active layer "B" has a switched-off mask. *)
Definition hidden_mask_world : World :=
  mkWorld [0%nat] {[ 0%nat := FabricObject.mk 0 0 1 1 1000 800 ]} 1%nat
    default_background 1000 800 [1; 0; 0; 1; 0; 0] (mkOrigin 0 0)
    {[ "B"%string := 0%nat ]} None None two_layers (Some "B"%string)
    ToolMove [].

(** ** Events on the canvas *)

(** What reaches the canvas while the pointer is used: the three mouse
    events handled by Canvas.tsx, a move or a scaling that fabric itself
    applies to the object it is dragging, and the "object:modified" event
    that fabric fires when such a drag ends. *)
Inductive CanvasEvent :=
| MouseDown (px py : number) (target : option ObjId)
| MouseMove (px py : number)
| MouseUp
| Transform (o : ObjId) (g : FabricObject.t)
| ObjectModified (target : option ObjId).

Definition canvas_event (e : Editor) (ev : CanvasEvent) : Editor :=
  match ev with
  | MouseDown px py target => mouse_down px py target e
  | MouseMove px py => mouse_move px py e
  | MouseUp => mouse_up e
  | Transform o g => fabric_transform o g e
  | ObjectModified target => object_modified target e
  end.

Definition canvas_events (evs : list CanvasEvent) (e : Editor) : Editor :=
  fold_left canvas_event evs e.

(** The events of a list that are fabric's own transforms. *)
Fixpoint transforms_of (evs : list CanvasEvent) : list CanvasEvent :=
  match evs with
  | [] => []
  | Transform o g :: r => Transform o g :: transforms_of r
  | _ :: r => transforms_of r
  end.

(** A run of "mouse:move" events. *)
Definition mouse_moves (ps : list (number * number)) (e : Editor) : Editor :=
  fold_left (fun e p => mouse_move (fst p) (snd p) e) ps e.

(** The world right after a pointer-down that starts a new rectangle at
    (x,y) while [old] is the selection rectangle. *)
Definition redraw_world (x y : number) (old : ObjId) (w : World) : World :=
  let w1 := with_selection None
              (with_selectionRectRef None (canvas_remove old w)) in
  canvas_add (nextId w)
    (with_nextId (S (nextId w))
       (with_heap (<[nextId w := FabricObject.mk x y 1 1 0 0]> (heap w1)) w1)).

(** The world on which [crop] runs its command when an image [prev] is bound
    to the active layer: the decoded crop is allocated and the selection
    reference is dropped. *)
Definition crop_prepared (width height x y : number) (w : World) : World :=
  with_selectionRectRef None
    (snd (alloc (FabricObject.mk x y 1 1 width height) w)).
(** A canvas with a selection rectangle and no layer. *)
Definition unbound_selected_state : State :=
  new_HistoryManager 50
    (mkWorld [1%nat] {[ 1%nat := FabricObject.mk 100 50 1 1 400 300 ]} 2%nat
       default_background 1000 800 [1; 0; 0; 1; 0; 0] (mkOrigin 0 0)
       ∅ (Some 1%nat) (Some (mkSelectionData 100 50 400 300)) []
       None ToolCrop []).

(** ** Keyboard shortcuts (Canvas.tsx and the page component) *)

Record KeyEvent := mkKeyEvent {
  key : string;             (* e.key *)
  ctrlKey : bool;
  metaKey : bool;
  shiftKey : bool;
  targetIsInput : bool      (* e.target is an input or a textarea *)
}.

(** [toLowerCase] on the ASCII letters, which is all that key names hold. *)
Definition ascii_to_lower (c : Ascii.ascii) : Ascii.ascii :=
  let n := Ascii.nat_of_ascii c in
  if (65 <=? n)%nat && (n <=? 90)%nat then Ascii.ascii_of_nat (n + 32) else c.

Fixpoint to_lower (s : string) : string :=
  match s with
  | String.EmptyString => String.EmptyString
  | String.String c s' => String.String (ascii_to_lower c) (to_lower s')
  end.

Definition with_activeTool (t : ActiveTool) (w : World) : World :=
  mkWorld (objects w) (heap w) (nextId w) (backgroundColor w) (canvasWidth w)
    (canvasHeight w) (viewportTransform w) (documentOrigin w) (layerMap w)
    (selectionRectRef w) (selection w) (layers w) (activeLayerId w) t
    (console w).

Definition with_activeLayerId (a : option string) (w : World) : World :=
  mkWorld (objects w) (heap w) (nextId w) (backgroundColor w) (canvasWidth w)
    (canvasHeight w) (viewportTransform w) (documentOrigin w) (layerMap w)
    (selectionRectRef w) (selection w) (layers w) a (activeTool w)
    (console w).

(** The store's [setActiveTool] and [removeLayer], on the store fields that
    the world carries. *)
Definition setActiveTool (t : ActiveTool) (s : State) : State :=
  with_world (with_activeTool t (world s)) s.

Definition store_removeLayer (id : string) (s : State) : State :=
  let w := world s in
  let ls := removeLayer id
              (LayerState.mk (layers w) (activeLayerId w) (activeTool w) false) in
  with_world
    (with_activeLayerId (LayerState.activeLayerId ls)
       (with_layers (LayerState.layers ls) w)) s.

(** [handleKeyDown] of Canvas.tsx. *)
Definition canvas_handleKeyDown (e : KeyEvent) (s : State) : State :=
  if string_eqb (key e) "Escape" then clearSelectionWithHistory s
  else if ctrlKey e && (string_eqb (key e) "y" || string_eqb (key e) "Y")
  then redo s
  else if ctrlKey e && shiftKey e && string_eqb (key e) "Z" then redo s
  else if ctrlKey e && string_eqb (key e) "z" then undo s
  else s.

(** [handleKeyDown] of the page component.  The export of Ctrl+S writes a
    file and changes no state. *)
Definition page_handleKeyDown (e : KeyEvent) (s : State) : State :=
  if targetIsInput e then s
  else
    let k := to_lower (key e) in
    let ctrl := ctrlKey e || metaKey e in
    let shift := shiftKey e in
    if ctrl && string_eqb k "z" then (if shift then redo s else undo s)
    else if ctrl && string_eqb k "d" then clearSelectionWithHistory s
    else if ctrl && string_eqb k "s" then s
    else if string_eqb k "escape"
    then setActiveTool ToolMove (clearSelectionWithHistory s)
    else if string_eqb k "delete" || string_eqb k "backspace"
    then (if truthy_str (activeLayerId (world s))
          then match activeLayerId (world s) with
               | Some a => store_removeLayer a s
               | None => s
               end
          else s)
    else if string_eqb k "v" then setActiveTool ToolMove s
    else if string_eqb k "m" then setActiveTool ToolSelect s
    else if string_eqb k "c" then setActiveTool ToolCrop s
    else s.

(** One key press on the window: both listeners run, the canvas's (added
    when the canvas mounts) before the page's. *)
Definition window_keydown (e : KeyEvent) (s : State) : State :=
  page_handleKeyDown e (canvas_handleKeyDown e s).

(** ** The store's actions as one step function *)

(** [setActiveLayer]. *)
Definition setActiveLayer (id : option string) (s : LayerState.t)
    : LayerState.t :=
  LayerState.mk (LayerState.layers s) id (LayerState.activeTool s)
    (LayerState.maskPreviewMode s).

Definition with_store_layers (ls : list Layer.t) (s : LayerState.t)
    : LayerState.t :=
  LayerState.mk ls (LayerState.activeLayerId s) (LayerState.activeTool s)
    (LayerState.maskPreviewMode s).

Inductive StoreOp :=
| SAddLayer (layerData : LayerData.t) (uuid : string)
| SRemoveLayer (id : string)
| SUpdateLayer (id : string) (updates : LayerUpdate.t)
| SSetActiveLayer (id : option string)
| SReorderLayers (fromIndex toIndex : number)
| SSetLayerMask (layerId : string) (maskDataUrl : option string)
| SToggleLayerMask (layerId : string)
| SSetLayerFilter (layerId filterName : string) (value : number)
| SSetLayerThumbnail (layerId thumbnailDataUrl : string).

(** One store action; [None] is the layer list corrupted by [reorderLayers]. *)
Definition store_step (op : StoreOp) (s : LayerState.t) : option LayerState.t :=
  let ls := LayerState.layers s in
  match op with
  | SAddLayer d uuid => Some (snd (addLayer d uuid s))
  | SRemoveLayer id => Some (removeLayer id s)
  | SUpdateLayer id u => Some (with_store_layers (updateLayer id u ls) s)
  | SSetActiveLayer id => Some (setActiveLayer id s)
  | SReorderLayers i j =>
      option_map (fun ls' => with_store_layers ls' s) (reorderLayers i j ls)
  | SSetLayerMask id d => Some (with_store_layers (setLayerMask id d ls) s)
  | SToggleLayerMask id => Some (with_store_layers (toggleLayerMask id ls) s)
  | SSetLayerFilter id k v => Some (with_store_layers (setLayerFilter id k v ls) s)
  | SSetLayerThumbnail id t =>
      Some (with_store_layers (setLayerThumbnail id t ls) s)
  end.

(** What the callers of the store guarantee: a new id is unused, an update
    does not rewrite the id, the layer made active exists, and a layer is
    dragged from a row that exists. *)
Definition store_op_ok (op : StoreOp) (s : LayerState.t) : Prop :=
  match op with
  | SAddLayer _ uuid => ~ In uuid (layer_ids (LayerState.layers s))
  | SUpdateLayer _ u => LayerUpdate.id u = None
  | SSetActiveLayer (Some id) => In id (layer_ids (LayerState.layers s))
  | SReorderLayers i _ => 0 <= i < Z.of_nat (length (LayerState.layers s))
  | _ => True
  end.
(** What [UploadImageAction.undo] puts on the cleared canvas. *)
Definition upload_restored (previousImage previousSelection : option ObjId)
    : list ObjId :=
  match previousImage with
  | Some p => p :: match previousSelection with Some s => [s] | None => [] end
  | None => []
  end.

(** ** Mask pixels (generateMaskData, the invert case) *)
















(** ** The layer effect of Canvas.tsx *)

(** [canvas.bringObjectToFront] (fabric): an object that is already the
    topmost one stays where it is; any other object is taken out of the
    list and pushed at its end. *)
Definition canvas_bringObjectToFront (o : ObjId) (w : World) : World :=
  let moved := with_objects (push (remove_first o (objects w)) o) w in
  match last (objects w) with
  | Some t => if Nat.eqb o t then w else moved
  | None => moved
  end.

(** The effect that React runs after every change of the store's [layers]
    ([useEffect(..., [layers])]), taken to its completion.  It drops the
    bindings of layers that left the store together with their objects,
    then brings the bound objects to the front from the last layer to the
    first, and last the selection rectangle.  The flags, opacity and clip
    path that it also writes are not part of the world.  The effect runs
    after the handler that wrote the store has returned, not inside it. *)
Definition layers_effect (w : World) : World :=
  let currentIds := layer_ids (layers w) in
  let stale :=
    filter (fun b : string * ObjId => fst b ∉ currentIds) (layerMap w) in
  let w := with_objects
             (foldr (fun b objs => remove_first (snd b) objs) (objects w)
                (map_to_list stale)) w in
  let w := with_layerMap
             (filter (fun b : string * ObjId => fst b ∈ currentIds) (layerMap w))
             w in
  let w := fold_left
             (fun w layer =>
                match layerMap w !! Layer.id layer with
                | Some obj => canvas_bringObjectToFront obj w
                | None => w
                end)
             (rev (layers w)) w in
  match selectionRectRef w with
  | Some r => canvas_bringObjectToFront r w
  | None => w
  end.

(** Every binding names a layer of the store and an object on the canvas,
    and the selection rectangle, if any, is on the canvas. *)
Definition live_bindings (w : World) : Prop :=
  (forall id obj, layerMap w !! id = Some obj ->
                  In id (layer_ids (layers w)) /\ In obj (objects w))
  /\ (forall r, selectionRectRef w = Some r -> In r (objects w)).

(** ** Engine calls interleaved with re-stackings *)

(** An [execute], an [undo], or a re-stacking of the canvas: its objects are
    put in the given order, which has to be a permutation of what is on the
    canvas (anything else is not a re-stacking and changes nothing). *)
Inductive Event :=
| EvExecute (a : Action)
| EvUndo
| EvRestack (order : list ObjId).

Definition event (s : State) (ev : Event) : State :=
  match ev with
  | EvExecute a => execute a s
  | EvUndo => undo s
  | EvRestack order =>
      if bool_decide (order ≡ₚ objects (world s))
      then with_world (with_objects order (world s)) s
      else s
  end.




(** The same drawable objects with the same fields, whatever their stacking
    order, the same layer bindings and the same document origin. *)
Definition same_doc (w1 w2 : World) : Prop :=
  objects w1 ≡ₚ objects w2 /\ heap w1 = heap w2
  /\ layerMap w1 = layerMap w2 /\ documentOrigin w1 = documentOrigin w2.



(** Two images and a selection rectangle on top; layer "B", the active one,
    is bound to the lower image. *)
Definition two_image_world : World :=
  mkWorld [0%nat; 1%nat; 2%nat]
    {[ 0%nat := FabricObject.mk 0 0 1 1 1000 800;
       1%nat := FabricObject.mk 0 0 1 1 1000 800;
       2%nat := FabricObject.mk 100 50 1 1 400 300 ]} 3%nat
    default_background 1000 800 [1; 0; 0; 1; 0; 0] (mkOrigin 0 0)
    {[ "A"%string := 1%nat; "B"%string := 0%nat ]} (Some 2%nat)
    (Some (mkSelectionData 100 50 400 300)) two_layers
    (Some "B"%string) ToolCrop [].



(** The selection rectangle of the sample document dragged from (100,50) to
    (120,70), up to the moment "object:modified" fires. *)
Definition dragged_selection : Editor :=
  fabric_transform 1%nat (FabricObject.mk 120 70 1 1 400 300)
    (mouse_down 150 80 (Some 1%nat)
       (mkEditor selected_state false 0 0 None None)).

(** * Properties *)

(** ** Stack primitives *)

Lemma pop_push {A} (l : list A) (a : A) : pop (push l a) = (Some a, l).
Proof.
  unfold pop, push. by rewrite last_snoc, removelast_last.
Qed.

Lemma pop_nil {A} : pop (@nil A) = (None, []).
Proof. reflexivity. Qed.

Lemma pop_spec {A} (l : list A) :
  (l = [] /\ pop l = (None, [])) \/
  (exists r a, l = push r a /\ pop l = (Some a, r)).
Proof.
  destruct l as [|x l] using rev_ind.
  - left. split; reflexivity.
  - right. exists l, x. split; [reflexivity|]. apply pop_push.
Qed.

Lemma shift_drop {A} (k : nat) (l : list A) : shift (drop k l) = drop (S k) l.
Proof.
  revert k. induction l as [|x l IH]; intros [|k]; simpl; try reflexivity.
  apply IH.
Qed.

(** ** History engine *)

Lemma redo_no_redo (s : State) : redoStack s = [] -> redo s = s.
Proof. intros H. unfold redo. rewrite H. reflexivity. Qed.

Lemma execute_redoStack (c : Action) (s : State) : redoStack (execute c s) = [].
Proof. reflexivity. Qed.

Lemma undos_since_execute_mono (ops : list Op) (a b : nat) :
  (a <= b)%nat -> (undos_since_execute ops a <= undos_since_execute ops b)%nat.
Proof.
  revert a b. induction ops as [|o ops IH]; intros a b Hab; simpl; [exact Hab|].
  destruct o; auto with lia.
Qed.

Lemma undo_redo_length (s : State) :
  (length (redoStack (undo s)) <= S (length (redoStack s)))%nat.
Proof.
  unfold undo. destruct (pop_spec (undoStack s)) as [[_ ->]|(r & a & _ & ->)]; simpl.
  - lia.
  - unfold push. rewrite length_app. simpl. lia.
Qed.

Lemma redo_redo_length (s : State) :
  (length (redoStack (redo s)) <= length (redoStack s))%nat.
Proof.
  unfold redo. destruct (pop_spec (redoStack s)) as [[_ ->]|(r & a & E & ->)]; simpl.
  - lia.
  - rewrite E. unfold push. rewrite length_app. simpl. lia.
Qed.

Lemma run_redo_bound (ops : list Op) (s : State) :
  (length (redoStack (run ops s))
   <= undos_since_execute ops (length (redoStack s)))%nat.
Proof.
  revert s. induction ops as [|o ops IH]; intros s; simpl; [lia|].
  etransitivity; [apply IH|].
  destruct o; simpl.
  - apply undos_since_execute_mono. lia.
  - apply undos_since_execute_mono, undo_redo_length.
  - apply undos_since_execute_mono, redo_redo_length.
  - apply undos_since_execute_mono. lia.
Qed.

(** C3.  [execute] always leaves the redo stack empty: right afterwards
    [canRedo] answers false and [redo] changes nothing at all (stacks, world,
    notifications).  Along any sequence of operations on a fresh engine the
    redo stack holds at most as many entries as there were [undo] calls since
    the last [execute] (or [clear]); so it is non-empty only after undo calls
    with no execute in between. *)
Theorem execute_clears_redo :
  (forall (s : State) (c : Action),
      redoStack (execute c s) = []
      /\ canRedo (execute c s) = false
      /\ redo (execute c s) = execute c s)
  /\ (forall (ops : list Op) (maxSize : number) (w : World),
        (length (redoStack (run ops (new_HistoryManager maxSize w)))
         <= undos_since_execute ops 0)%nat).
Proof.
  split.
  - intros s c. split; [reflexivity|]. split; [reflexivity|].
    apply redo_no_redo, execute_redoStack.
  - intros ops maxSize w. apply (run_redo_bound ops (new_HistoryManager maxSize w)).
Qed.

Lemma step_maxHistorySize (s : State) (o : Op) :
  maxHistorySize (step s o) = maxHistorySize s.
Proof.
  destruct o; simpl; try reflexivity.
  - unfold undo. destruct (pop (undoStack s)) as [[a|] r]; reflexivity.
  - unfold redo. destruct (pop (redoStack s)) as [[a|] r]; reflexivity.
Qed.

Lemma step_within_bound (s : State) (o : Op) :
  within_bound s -> within_bound (step s o).
Proof.
  unfold within_bound. intros H. destruct o; simpl.
  - unfold push. destruct (Z.ltb_spec (maxHistorySize s)
                             (Z.of_nat (length (undoStack s ++ [a])))) as [Hlt|Hge].
    + destruct (undoStack s) as [|x u]; simpl in *; [lia|].
      rewrite length_app in *. simpl in *. lia.
    + rewrite length_app in *. simpl in *. lia.
  - unfold undo.
    destruct (pop_spec (undoStack s)) as [[_ ->]|(r & a & E & ->)]; simpl; [exact H|].
    rewrite E in H. unfold push in *. rewrite length_app in *. simpl in *. lia.
  - unfold redo.
    destruct (pop_spec (redoStack s)) as [[_ ->]|(r & a & E & ->)]; simpl; [exact H|].
    rewrite E in H. unfold push in *. rewrite length_app in *. simpl in *. lia.
  - lia.
Qed.

Lemma run_within_bound (ops : list Op) (s : State) :
  within_bound s -> within_bound (run ops s).
Proof.
  revert s. induction ops as [|o ops IH]; intros s H; simpl; [exact H|].
  apply IH, step_within_bound, H.
Qed.

Lemma run_maxHistorySize (ops : list Op) (s : State) :
  maxHistorySize (run ops s) = maxHistorySize s.
Proof.
  revert s. induction ops as [|o ops IH]; intros s; simpl; [reflexivity|].
  rewrite IH. apply step_maxHistorySize.
Qed.

Lemma run_app (ops1 ops2 : list Op) (s : State) :
  run (ops1 ++ ops2) s = run ops2 (run ops1 s).
Proof. unfold run. apply fold_left_app. Qed.

Lemma execute_all_snoc (cs : list Action) (c : Action) (s : State) :
  execute_all (cs ++ [c]) s = execute c (execute_all cs s).
Proof. unfold execute_all. rewrite map_app, run_app. reflexivity. Qed.

Lemma execute_all_redoStack (cs : list Action) (s : State) :
  redoStack s = [] -> redoStack (execute_all cs s) = [].
Proof.
  destruct cs as [|c cs _] using rev_ind; [auto|].
  intros _. rewrite execute_all_snoc. reflexivity.
Qed.

(** After [execute]-only traffic on a fresh engine the undo stack is the
    window of the most recent [maxSize] commands. *)
Lemma execute_all_undoStack (cs : list Action) (m : nat) (w : World) :
  undoStack (execute_all cs (new_HistoryManager (Z.of_nat m) w))
  = drop (length cs - m) cs.
Proof.
  induction cs as [|c cs IH] using rev_ind; [reflexivity|].
  rewrite execute_all_snoc. unfold execute. simpl.
  unfold execute_all at 1 2. rewrite run_maxHistorySize. simpl.
  fold (execute_all cs (new_HistoryManager (Z.of_nat m) w)). rewrite IH.
  unfold push. rewrite !length_app, length_drop. simpl.
  destruct (Z.ltb_spec (Z.of_nat m) (Z.of_nat (length cs - (length cs - m) + 1)))
    as [Hlt|Hge].
  - assert (Hle : (m <= length cs)%nat) by lia.
    rewrite <- (drop_app_le cs [c]) by lia.
    rewrite shift_drop. f_equal. lia.
  - assert (Hk : (length cs - m = 0)%nat) by lia.
    assert (Hk' : (length cs + 1 - m = 0)%nat) by lia.
    rewrite Hk, Hk'. reflexivity.
Qed.

Lemma undo_keeps_line (s : State) :
  undoStack (undo s) ++ rev (redoStack (undo s))
  = undoStack s ++ rev (redoStack s).
Proof.
  unfold undo.
  destruct (pop_spec (undoStack s)) as [[_ ->]|(r & a & E & ->)]; simpl; [reflexivity|].
  rewrite E. unfold push. rewrite rev_app_distr. simpl. by rewrite <- app_assoc.
Qed.

Lemma redo_keeps_line (s : State) :
  undoStack (redo s) ++ rev (redoStack (redo s))
  = undoStack s ++ rev (redoStack s).
Proof.
  unfold redo.
  destruct (pop_spec (redoStack s)) as [[_ ->]|(r & a & E & ->)]; simpl; [reflexivity|].
  rewrite E. unfold push. rewrite rev_app_distr. simpl. by rewrite <- app_assoc.
Qed.

Lemma walk_keeps_line (moves : list bool) (s : State) :
  undoStack (walk moves s) ++ rev (redoStack (walk moves s))
  = undoStack s ++ rev (redoStack s).
Proof.
  revert s. induction moves as [|b moves IH]; intros s; [reflexivity|].
  unfold walk in *. simpl. rewrite IH.
  destruct b; simpl; [apply undo_keeps_line | apply redo_keeps_line].
Qed.

(** C4.  On an engine built with the default depth 50: along any sequence of
    operations the two stacks together hold at most 50 commands; after any
    sequence of [execute] calls the undo stack is exactly the 50 most recent
    commands (the older ones are dropped), the redo stack is empty and [redo]
    does nothing; and whatever undo / redo calls follow, the stacks only ever
    hold those 50 most recent commands, so a dropped command never reaches
    the redo stack. *)
Theorem undo_stack_bounded :
  (forall (ops : list Op) (w : World),
      let s := run ops (new_HistoryManager 50 w) in
      (length (undoStack s) + length (redoStack s) <= 50)%nat)
  /\ (forall (cs : list Action) (w : World),
        let s := execute_all cs (new_HistoryManager 50 w) in
        (length (undoStack s) <= 50)%nat
        /\ undoStack s = drop (length cs - 50) cs
        /\ redoStack s = []
        /\ redo s = s)
  /\ (forall (cs : list Action) (w : World) (moves : list bool),
        let s := walk moves (execute_all cs (new_HistoryManager 50 w)) in
        undoStack s ++ rev (redoStack s) = drop (length cs - 50) cs).
Proof.
  split; [|split].
  - intros ops w s.
    assert (H : within_bound s).
    { apply run_within_bound. unfold within_bound. simpl. lia. }
    unfold within_bound in H. subst s. rewrite run_maxHistorySize in H.
    simpl in H. lia.
  - intros cs w s. subst s.
    pose proof (execute_all_undoStack cs 50 w) as Hu.
    change (Z.of_nat 50) with 50 in Hu.
    pose proof (execute_all_redoStack cs (new_HistoryManager 50 w) eq_refl) as Hr.
    split; [|split; [exact Hu|split; [exact Hr|apply redo_no_redo, Hr]]].
    rewrite Hu, length_drop. lia.
  - intros cs w moves s. subst s. rewrite walk_keeps_line.
    pose proof (execute_all_undoStack cs 50 w) as Hu.
    change (Z.of_nat 50) with 50 in Hu.
    rewrite Hu, (execute_all_redoStack cs (new_HistoryManager 50 w) eq_refl).
    simpl. apply app_nil_r.
Qed.

(** ** Layer store: masks *)

Lemma string_eqb_eq (a b : string) : string_eqb a b = true <-> a = b.
Proof. unfold string_eqb. apply bool_decide_eq_true. Qed.

Lemma toggleLayerMask1_id (layerId : string) (l : Layer.t) :
  Layer.id (toggleLayerMask1 layerId l) = Layer.id l.
Proof.
  unfold toggleLayerMask1.
  destruct (negb _ || negb _); reflexivity.
Qed.

Lemma toggleLayerMask1_twice (layerId : string) (l : Layer.t) :
  toggleLayerMask1 layerId (toggleLayerMask1 layerId l) = l.
Proof.
  destruct l as [i n v k o b c t [[d vis]|] f]; unfold toggleLayerMask1; simpl.
  - destruct (string_eqb i layerId) eqn:E; simpl; rewrite ?E; simpl.
    + unfold Layer.with_mask. simpl. by rewrite negb_involutive.
    + reflexivity.
  - by rewrite !orb_true_r.
Qed.

Lemma toggleLayerMask_twice (layerId : string) (ls : list Layer.t) :
  toggleLayerMask layerId (toggleLayerMask layerId ls) = ls.
Proof.
  unfold toggleLayerMask. rewrite map_map.
  induction ls as [|l ls IH]; simpl; [reflexivity|].
  by rewrite toggleLayerMask1_twice, IH.
Qed.

Lemma toggleLayerMask_no_target (layerId : string) (ls : list Layer.t) :
  has_masked_target layerId ls = false -> toggleLayerMask layerId ls = ls.
Proof.
  unfold has_masked_target, toggleLayerMask.
  induction ls as [|l ls IH]; simpl; [reflexivity|].
  intros H. apply orb_false_iff in H as [Hl Hls].
  rewrite IH by exact Hls. f_equal.
  unfold toggleLayerMask1.
  destruct (string_eqb (Layer.id l) layerId), (is_some (Layer.mask l));
    simpl in *; congruence.
Qed.

(** What one application does to a single layer: nothing outside the
    [mask], nothing to the mask's [dataUrl], nothing to a layer with another
    id. *)
Lemma toggleLayerMask1_frame (layerId : string) (l : Layer.t) :
  Layer.with_mask None (toggleLayerMask1 layerId l) = Layer.with_mask None l
  /\ option_map Mask.dataUrl (Layer.mask (toggleLayerMask1 layerId l))
     = option_map Mask.dataUrl (Layer.mask l)
  /\ (Layer.id l <> layerId -> toggleLayerMask1 layerId l = l).
Proof.
  unfold toggleLayerMask1.
  destruct (string_eqb (Layer.id l) layerId) eqn:E; simpl.
  - apply string_eqb_eq in E.
    destruct l as [i n v k o b c t [[d vis]|] f]; simpl in *;
      (split; [reflexivity|split; [reflexivity|congruence]]).
  - split; [reflexivity|split; reflexivity].
Qed.

Lemma map_lookup_Some {A B} (f : A -> B) (l : list A) (i : nat) (x : A) :
  l !! i = Some x -> map f l !! i = Some (f x).
Proof.
  revert i. induction l as [|y l IH]; intros [|i] H; simpl in *;
    try discriminate.
  - by injection H as ->.
  - by apply IH.
Qed.

(** C10.  [ToggleMaskAction.undo] is the same operation as its [execute], a
    single [toggleLayerMask]; [toggleLayerMask] applied twice for one id
    gives back the layer list; when no layer with that id has a mask, one
    application already leaves the list as it is; and an application keeps
    the number and order of layers, leaves every layer with another id as it
    is, and changes no field except [mask.visible]. *)
Theorem toggle_mask_involution (layerId : string) (w : World)
    (ls : list Layer.t) :
  undo_action (ToggleMaskAction layerId) w
  = exec_action (ToggleMaskAction layerId) w
  /\ exec_action (ToggleMaskAction layerId) w
     = with_layers (toggleLayerMask layerId (layers w)) w
  /\ toggleLayerMask layerId (toggleLayerMask layerId ls) = ls
  /\ (has_masked_target layerId ls = false -> toggleLayerMask layerId ls = ls)
  /\ length (toggleLayerMask layerId ls) = length ls
  /\ (forall (i : nat) (l : Layer.t),
         ls !! i = Some l ->
         exists l',
           toggleLayerMask layerId ls !! i = Some l'
           /\ (Layer.id l <> layerId -> l' = l)
           /\ Layer.with_mask None l' = Layer.with_mask None l
           /\ option_map Mask.dataUrl (Layer.mask l')
              = option_map Mask.dataUrl (Layer.mask l)).
Proof.
  split; [reflexivity|]. split; [reflexivity|].
  split; [apply toggleLayerMask_twice|].
  split; [apply toggleLayerMask_no_target|].
  split; [apply length_map|].
  intros i l Hl. exists (toggleLayerMask1 layerId l).
  split; [apply map_lookup_Some, Hl|].
  destruct (toggleLayerMask1_frame layerId l) as (H1 & H2 & H3). auto.
Qed.

(** ** Applying a command twice *)

Lemma setLayerMask1_twice (layerId : string) (d : option string) (l : Layer.t) :
  setLayerMask1 layerId d (setLayerMask1 layerId d l) = setLayerMask1 layerId d l.
Proof.
  unfold setLayerMask1.
  destruct (negb (string_eqb (Layer.id l) layerId)) eqn:E.
  - by rewrite E.
  - destruct d; simpl; by rewrite E.
Qed.

Lemma setLayerMask_twice (layerId : string) (d : option string)
    (ls : list Layer.t) :
  setLayerMask layerId d (setLayerMask layerId d ls) = setLayerMask layerId d ls.
Proof.
  unfold setLayerMask. rewrite map_map. apply map_ext. intros l.
  apply setLayerMask1_twice.
Qed.

Lemma remove_first_absent (x : ObjId) (l : list ObjId) :
  ~ In x l -> remove_first x l = l.
Proof.
  induction l as [|y l IH]; simpl; [reflexivity|].
  intros H. destruct (Nat.eqb_spec x y) as [->|Hne].
  - exfalso. apply H. by left.
  - f_equal. apply IH. intros Hin. apply H. by right.
Qed.

Lemma remove_first_In (x y : ObjId) (l : list ObjId) :
  In y (remove_first x l) -> In y l.
Proof.
  induction l as [|z l IH]; simpl; [auto|].
  destruct (Nat.eqb_spec x z) as [->|Hne]; simpl; intuition.
Qed.

Lemma remove_first_NoDup (x : ObjId) (l : list ObjId) :
  List.NoDup l -> ~ In x (remove_first x l).
Proof.
  induction 1 as [|y l Hy Hl IH]; simpl; [auto|].
  destruct (Nat.eqb_spec x y) as [->|Hne]; [exact Hy|].
  simpl. intros [E|Hin]; [congruence | exact (IH Hin)].
Qed.

Lemma remove_first_push (x : ObjId) (l : list ObjId) :
  ~ In x l -> remove_first x (push l x) = l.
Proof.
  unfold push. induction l as [|y l IH]; simpl; intros H.
  - by rewrite Nat.eqb_refl.
  - destruct (Nat.eqb_spec x y) as [->|Hne].
    + exfalso. apply H. by left.
    + f_equal. apply IH. intros Hin. apply H. by right.
Qed.

Lemma alter_const_twice (g : FabricObject.t) (o : ObjId)
    (h : gmap ObjId FabricObject.t) :
  alter (fun _ => g) o (alter (fun _ => g) o h) = alter (fun _ => g) o h.
Proof.
  apply map_eq. intros i. destruct (decide (o = i)) as [->|Hne].
  - rewrite !lookup_alter_eq. by destruct (h !! i).
  - by rewrite !lookup_alter_ne.
Qed.

Lemma getSelectionData_ext (w1 w2 : World) :
  selectionRectRef w1 = selectionRectRef w2 -> heap w1 = heap w2 ->
  getSelectionData w1 = getSelectionData w2.
Proof.
  unfold getSelectionData, obj_get. intros -> ->. reflexivity.
Qed.

Lemma modify_twice (sel : ObjId) (prev new : FabricObject.t) (w : World) :
  selectionRectRef w = Some sel ->
  exec_action (ModifySelectionAction sel prev new)
    (exec_action (ModifySelectionAction sel prev new) w)
  = exec_action (ModifySelectionAction sel prev new) w.
Proof.
  intros Hsel. cbn [exec_action].
  set (w1 := obj_set sel (fun _ => new) w).
  set (W := handleSelectionChangeInternal (Some sel) (getSelectionData w1) w1).
  assert (E : obj_set sel (fun _ => new) W = W).
  { unfold obj_set.
    replace (alter (fun _ => new) sel (heap W)) with (heap W);
      [reflexivity|].
    symmetry. apply (alter_const_twice new sel (heap w)). }
  rewrite E.
  rewrite (getSelectionData_ext W w1); [reflexivity| |reflexivity].
  exact (eq_sym Hsel).
Qed.

Lemma clear_twice (sel : ObjId) (w : World) :
  List.NoDup (objects w) ->
  exec_action (ClearSelectionAction sel)
    (exec_action (ClearSelectionAction sel) w)
  = exec_action (ClearSelectionAction sel) w.
Proof.
  intros Hnd. cbn [exec_action].
  set (W := handleSelectionChangeInternal None None (canvas_remove sel w)).
  assert (E : canvas_remove sel W = W).
  { unfold canvas_remove.
    replace (remove_first sel (objects W)) with (objects W); [reflexivity|].
    symmetry. apply (remove_first_absent sel (remove_first sel (objects w))).
    by apply remove_first_NoDup. }
  rewrite E. reflexivity.
Qed.

Lemma toggleLayerMask_fixed (layerId : string) (ls : list Layer.t) :
  toggleLayerMask layerId ls = ls -> has_masked_target layerId ls = false.
Proof.
  unfold toggleLayerMask, has_masked_target.
  induction ls as [|l ls IH]; simpl; [reflexivity|].
  intros H. injection H as Hl Hls. rewrite (IH Hls), orb_false_r.
  unfold toggleLayerMask1 in Hl.
  destruct (string_eqb (Layer.id l) layerId); [|reflexivity].
  destruct l as [i n v k o b c t [[d vis]|] f]; simpl in *; [|reflexivity].
  unfold Layer.with_mask in Hl. simpl in Hl. injection Hl as Hv.
  by destruct vis.
Qed.

(** C5 (amended).  Applying twice equals applying once for [UploadImage] and
    [SetMask], for [ModifySelection] when the modified rectangle is the
    current selection, and for [ClearSelection] when the canvas lists no
    object twice.  [ToggleMask] is different: its apply is an involution, so
    applying twice gives back the state before the first apply, and that
    differs from the state after one apply whenever a layer with the id has a
    mask. *)
Theorem apply_twice (w : World) :
  (forall (p s : option ObjId) (n : ObjId),
      let a := UploadImageAction p s n in
      exec_action a (exec_action a w) = exec_action a w)
  /\ (forall (layerId : string) (old new : option string),
        let a := SetMaskAction layerId old new in
        exec_action a (exec_action a w) = exec_action a w)
  /\ (forall (sel : ObjId) (prev new : FabricObject.t),
        selectionRectRef w = Some sel ->
        let a := ModifySelectionAction sel prev new in
        exec_action a (exec_action a w) = exec_action a w)
  /\ (forall (sel : ObjId),
        List.NoDup (objects w) ->
        let a := ClearSelectionAction sel in
        exec_action a (exec_action a w) = exec_action a w)
  /\ (forall (layerId : string),
        let a := ToggleMaskAction layerId in
        exec_action a (exec_action a w) = w
        /\ (has_masked_target layerId (layers w) = true ->
            exec_action a (exec_action a w) <> exec_action a w)).
Proof.
  split; [|split; [|split; [|split]]].
  - intros p s n a. reflexivity.
  - intros layerId old new a. subst a. destruct w. simpl.
    unfold with_layers. simpl. by rewrite setLayerMask_twice.
  - intros sel prev new Hsel a. subst a. apply modify_twice, Hsel.
  - intros sel Hnd a. subst a. apply clear_twice, Hnd.
  - intros layerId a. subst a. destruct w. simpl. unfold with_layers. simpl.
    rewrite toggleLayerMask_twice. split; [reflexivity|].
    intros Hm Heq. injection Heq as Heq. symmetry in Heq.
    apply toggleLayerMask_fixed in Heq. congruence.
Qed.

(** C5, as stated, fails for [ToggleMask]: on a layer whose mask is shown,
    one apply hides the mask and a second apply shows it again. *)
Lemma toggle_twice_differs :
  let a := ToggleMaskAction "L1" in
  map Layer.mask (layers (exec_action a one_layer_world))
  = [Some (Mask.mk "data:mask" false)]
  /\ map Layer.mask (layers (exec_action a (exec_action a one_layer_world)))
     = [Some (Mask.mk "data:mask" true)]
  /\ exec_action a (exec_action a one_layer_world)
     <> exec_action a one_layer_world.
Proof.
  split; [reflexivity|]. split; [reflexivity|].
  intros H. apply (f_equal (fun w => map Layer.mask (layers w))) in H.
  vm_compute in H. discriminate H.
Qed.

(** ** Selection gestures *)

Lemma num_or_0 (a : number) : num_or a 0 = a.
Proof. unfold num_or. destruct (Z.eqb_spec a 0); congruence. Qed.

Lemma obj_get_alter (o : ObjId) (f : FabricObject.t -> FabricObject.t)
    (p : FabricObject.t -> number) (w : World) :
  obj_get o p (obj_set o f w)
  = match heap w !! o with Some g => p (f g) | None => 0 end.
Proof.
  unfold obj_get, obj_set. destruct w; simpl.
  rewrite lookup_alter_eq. by destruct (_ !! o).
Qed.

(** One pointer move while drawing: the size is the absolute distance to the
    anchor; [left] (resp. [top]) is overwritten only when the pointer is left
    of (resp. above) the anchor, and otherwise keeps whatever it held. *)
Lemma mouse_move_rect (px py : number) (e : Editor) (rect : ObjId)
    (g : FabricObject.t) :
  isDrawing e = true -> tempSelection e = Some rect ->
  heap (world (st e)) !! rect = Some g ->
  heap (world (st (mouse_move px py e))) !! rect
  = Some (FabricObject.mk
            (if px <? startX e then px else FabricObject.left g)
            (if py <? startY e then py else FabricObject.top g)
            (FabricObject.scaleX g) (FabricObject.scaleY g)
            (Z.abs (px - startX e)) (Z.abs (py - startY e))).
Proof.
  intros Hd Ht Hg. unfold mouse_move. rewrite Hd, Ht.
  destruct e as [[w u r m ev] d sx sy t b]. simpl in *.
  destruct (Z.ltb_spec (px - sx) 0) as [Hx|Hx];
    destruct (Z.ltb_spec (py - sy) 0) as [Hy|Hy];
    destruct (Z.ltb_spec px sx); try lia;
    destruct (Z.ltb_spec py sy); try lia;
    destruct w; unfold obj_set; simpl in *;
    rewrite ?lookup_alter_eq, Hg; simpl;
    unfold FabricObject.set_size, FabricObject.set_left, FabricObject.set_top;
    simpl; rewrite ?(Z.abs_eq (px - sx)), ?(Z.abs_eq (py - sy)) by lia;
    reflexivity.
Qed.

(** C7 fails on the code.  After the second move the pointer is right of and
    below the anchor, so the min corner is the anchor (100,100); the
    rectangle still starts at (90,90), where the first move put it. *)
Theorem mouse_move_stale_corner :
  isDrawing drag_back = true
  /\ tempSelection drag_back = Some 1%nat
  /\ (startX drag_back, startY drag_back) = (100, 100)
  /\ heap (world (st drag_back)) !! 1%nat
     = Some (FabricObject.mk 90 90 1 1 20 20)
  /\ obj_get 1%nat FabricObject.left (world (st drag_back))
     <> Z.min (startX drag_back) 120
  /\ obj_get 1%nat FabricObject.top (world (st drag_back))
     <> Z.min (startY drag_back) 120.
Proof.
  repeat split; try (vm_compute; reflexivity); vm_compute; discriminate.
Qed.

(** C6.  Pointer-up while drawing.  When the rectangle is narrower or lower
    than 5 it is taken off the canvas and nothing else happens: both stacks,
    the notifications and the current selection stay as they were.
    Otherwise the rectangle becomes the selection, is on the canvas, and the
    undo stack is the old one plus the one new [CreateSelectionAction] entry
    (less the oldest entry when the depth bound is hit), with an empty redo
    stack.  Either way the gesture is over. *)
Theorem mouse_up_min_size (e : Editor) (rect : ObjId) :
  isDrawing e = true -> tempSelection e = Some rect ->
  let w := world (st e) in
  let e' := mouse_up e in
  isDrawing e' = false /\ tempSelection e' = None
  /\ if (obj_get rect FabricObject.width w <? 5)
        || (obj_get rect FabricObject.height w <? 5)
     then undoStack (st e') = undoStack (st e)
          /\ redoStack (st e') = redoStack (st e)
          /\ historyEvents (st e') = historyEvents (st e)
          /\ world (st e') = canvas_remove rect w
     else (exists dropped : list Action,
              dropped ++ undoStack (st e')
              = undoStack (st e) ++ [CreateSelectionAction rect None]
              /\ (length dropped <= 1)%nat
              /\ (Z.of_nat (length (undoStack (st e))) < maxHistorySize (st e)
                  -> dropped = []))
          /\ redoStack (st e') = []
          /\ selectionRectRef (world (st e')) = Some rect
          /\ objects (world (st e'))
             = remove_first rect (objects w) ++ [rect].
Proof.
  intros Hd Ht w e'. subst w e'. unfold mouse_up. rewrite Hd, Ht.
  rewrite !num_or_0. split; [reflexivity|]. split; [reflexivity|].
  destruct ((_ <? 5) || (_ <? 5)); simpl.
  - repeat split.
  - split; [|repeat split].
    unfold push.
    destruct (Z.ltb_spec (maxHistorySize (st e))
                (Z.of_nat (length (undoStack (st e) ++ [CreateSelectionAction rect None]))))
      as [Hlt|Hge].
    + destruct (undoStack (st e) ++ [CreateSelectionAction rect None])
        as [|x u] eqn:E.
      * exists []. simpl. repeat split; auto.
      * exists [x]. simpl. split; [reflexivity|]. split; [lia|].
        intros Hlen. exfalso. rewrite <- E, length_app in Hlt.
        simpl in Hlt. lia.
    + exists []. simpl. repeat split; auto.
Qed.

(** The 3-by-3 drag: nothing is recorded and nothing is selected. *)
Lemma mouse_up_min_size_witness :
  isDrawing drag_3x3 = true /\ tempSelection drag_3x3 = Some 1%nat
  /\ undoStack (st (mouse_up drag_3x3)) = []
  /\ selectionRectRef (world (st (mouse_up drag_3x3))) = None
  /\ objects (world (st (mouse_up drag_3x3))) = [0%nat].
Proof.
  split; [reflexivity|]. split; [reflexivity|].
  destruct (mouse_up_min_size drag_3x3 1%nat eq_refl eq_refl)
    as (_ & _ & H).
  change ((obj_get 1%nat FabricObject.width (world (st drag_3x3)) <? 5)
          || (obj_get 1%nat FabricObject.height (world (st drag_3x3)) <? 5))
    with true in H.
  destruct H as (Hu & _ & _ & Hw).
  rewrite Hu, Hw. repeat split.
Defined.

(** The 10-by-10 drag: one [CreateSelectionAction] is recorded. *)
Example drag_10x10_recorded :
  undoStack (st (mouse_up drag_10x10)) = [CreateSelectionAction 1%nat None]
  /\ redoStack (st (mouse_up drag_10x10)) = []
  /\ selectionRectRef (world (st (mouse_up drag_10x10))) = Some 1%nat
  /\ objects (world (st (mouse_up drag_10x10))) = [0%nat; 1%nat].
Proof. repeat split. Qed.

(** ** Crop *)

Lemma crop_swap_frame (r a : option ObjId) (l : option string) (w : World) :
  frame (crop_swap r a l w) = frame w.
Proof.
  unfold crop_swap. destruct r, a, l; try reflexivity.
  destruct (truthy_str _); reflexivity.
Qed.

Lemma handleSelectionChangeInternal_frame (sel : option ObjId)
    (data : option SelectionData) (w : World) :
  frame (handleSelectionChangeInternal sel data w) = frame w.
Proof. reflexivity. Qed.

Lemma canvas_add_frame (o : ObjId) (w : World) :
  frame (canvas_add o w) = frame w.
Proof. reflexivity. Qed.

(** No command touches the canvas dimensions or the document origin, in
    either direction. *)
Lemma exec_action_frame (a : Action) (w : World) :
  frame (exec_action a w) = frame w.
Proof.
  destruct a as [p s n|sel [p|]|sel p n|sel|l o n|l|c]; try reflexivity.
  cbn [exec_action]. rewrite crop_swap_frame. reflexivity.
Qed.

Lemma undo_action_frame (a : Action) (w : World) :
  frame (undo_action a w) = frame w.
Proof.
  destruct a as [[p|] [s|] n|sel [p|]|sel p n|sel|l o n|l|c];
    try reflexivity.
  cbn [undo_action].
  rewrite handleSelectionChangeInternal_frame, canvas_add_frame.
  apply crop_swap_frame.
Qed.

Lemma execute_frame (a : Action) (s : State) :
  frame (world (execute a s)) = frame (world s).
Proof. apply exec_action_frame. Qed.

Lemma undo_frame (s : State) : frame (world (undo s)) = frame (world s).
Proof.
  unfold undo. destruct (pop (undoStack s)) as [[a|] r]; simpl; [|reflexivity].
  apply undo_action_frame.
Qed.

Lemma redo_frame (s : State) : frame (world (redo s)) = frame (world s).
Proof.
  unfold redo. destruct (pop (redoStack s)) as [[a|] r]; simpl; [|reflexivity].
  apply exec_action_frame.
Qed.

Lemma execute_last (a : Action) (s : State) :
  1 <= maxHistorySize s -> last (undoStack (execute a s)) = Some a.
Proof.
  intros Hm. unfold execute. simpl. unfold push.
  destruct (Z.ltb_spec (maxHistorySize s)
              (Z.of_nat (length (undoStack s ++ [a])))) as [Hlt|Hge].
  - destruct (undoStack s) as [|x u]; simpl in *; [lia|]. apply last_snoc.
  - apply last_snoc.
Qed.

Lemma pop_last {A} (l : list A) (a : A) :
  last l = Some a -> pop l = (Some a, removelast l).
Proof. unfold pop. by intros ->. Qed.

Lemma crop_valid (width height x y : number) (s : State) (sel : ObjId) :
  selectionRectRef (world s) = Some sel -> 0 < width -> 0 < height ->
  exists w',
    frame w' = frame (world s)
    /\ crop width height x y s
       = execute (CropAction (crop_command width height x y s sel))
           (with_world w' s).
Proof.
  intros Hsel Hw Hh. unfold crop. rewrite Hsel.
  destruct (Z.leb_spec width 0); [lia|]. destruct (Z.leb_spec height 0); [lia|].
  simpl orb. cbv iota. unfold crop_command.
  destruct (getActiveImageObject (world s)) as [img|]; simpl.
  - eexists. split; [|reflexivity]. reflexivity.
  - eexists. split; [|reflexivity]. reflexivity.
Qed.

(** C2 (amended).  A crop by a valid rectangle, with a selection present and
    a history depth of at least one, records a command that stores the old
    dimensions (W,H), the new dimensions (w,h), the old origin and the new
    origin old + (x,y); the same command is what [undo] moves to the redo
    stack and [redo] moves back.  The canvas dimensions and the document
    origin themselves are left as they were by the crop, by its undo and by
    its redo. *)
Theorem crop_dimensions_origin (width height x y : number) (s : State)
    (sel : ObjId) :
  selectionRectRef (world s) = Some sel -> 0 < width -> 0 < height ->
  1 <= maxHistorySize s ->
  let s1 := crop width height x y s in
  let s2 := undo s1 in
  let s3 := redo s2 in
  (exists c : CropAction.t,
      last (undoStack s1) = Some (CropAction c)
      /\ last (redoStack s2) = Some (CropAction c)
      /\ last (undoStack s3) = Some (CropAction c)
      /\ (CropAction.oldWidth c, CropAction.oldHeight c)
         = (canvasWidth (world s), canvasHeight (world s))
      /\ (CropAction.newWidth c, CropAction.newHeight c) = (width, height)
      /\ CropAction.oldDocOrigin c = documentOrigin (world s)
      /\ CropAction.newDocOrigin c
         = mkOrigin (ox (documentOrigin (world s)) + x)
                    (oy (documentOrigin (world s)) + y))
  /\ frame (world s1) = frame (world s)
  /\ frame (world s2) = frame (world s)
  /\ frame (world s3) = frame (world s).
Proof.
  intros Hsel Hw Hh Hm s1 s2 s3.
  destruct (crop_valid width height x y s sel Hsel Hw Hh) as (w' & Hf & Hc).
  assert (H1 : last (undoStack s1)
               = Some (CropAction (crop_command width height x y s sel))).
  { subst s1. rewrite Hc. by apply execute_last. }
  assert (Hr1 : redoStack s1 = []).
  { subst s1. rewrite Hc. reflexivity. }
  assert (H2 : last (redoStack s2)
               = Some (CropAction (crop_command width height x y s sel))).
  { subst s2. unfold undo. rewrite (pop_last _ _ H1). simpl.
    rewrite Hr1. reflexivity. }
  assert (H3 : last (undoStack s3)
               = Some (CropAction (crop_command width height x y s sel))).
  { subst s3. unfold redo. rewrite (pop_last _ _ H2). simpl.
    unfold push. apply last_snoc. }
  assert (F1 : frame (world s1) = frame (world s)).
  { subst s1. rewrite Hc, execute_frame. exact Hf. }
  assert (F2 : frame (world s2) = frame (world s)).
  { subst s2. by rewrite undo_frame. }
  split; [|split; [exact F1|split; [exact F2|]]].
  - exists (crop_command width height x y s sel).
    repeat split; assumption.
  - subst s3. by rewrite redo_frame.
Qed.

(** Cropping the 1000 x 800 document to (100,50,400,300) and undoing. *)
Lemma crop_dimensions_origin_witness :
  selectionRectRef (world selected_state) = Some 1%nat
  /\ 0 < 400 /\ 0 < 300 /\ 1 <= maxHistorySize selected_state
  /\ frame (world (undo (crop 400 300 100 50 selected_state)))
     = (1000, 800, mkOrigin 0 0).
Proof.
  split; [reflexivity|]. split; [lia|]. split; [lia|]. split; [simpl; lia|].
  destruct (crop_dimensions_origin 400 300 100 50 selected_state 1%nat
              eq_refl eq_refl eq_refl) as (_ & _ & H & _).
  { simpl. lia. }
  exact H.
Defined.

(** C2, as stated, fails: after the crop the canvas is still 1000 x 800 and
    the origin still (0,0), not 400 x 300 and (100,50); a redo does not move
    the origin either. *)
Lemma crop_does_not_resize :
  let s1 := crop 400 300 100 50 selected_state in
  let s3 := redo (undo s1) in
  (canvasWidth (world s1), canvasHeight (world s1)) = (1000, 800)
  /\ (canvasWidth (world s1), canvasHeight (world s1)) <> (400, 300)
  /\ documentOrigin (world s1) = mkOrigin 0 0
  /\ documentOrigin (world s1) <> mkOrigin (0 + 100) (0 + 50)
  /\ documentOrigin (world s3) <> mkOrigin (0 + 100) (0 + 50).
Proof.
  repeat split; try (vm_compute; reflexivity); vm_compute; discriminate.
Qed.

(** C9 (amended).  A crop with a non-positive width or height changes
    nothing but the console: the stacks, the notifications and every part of
    the world stay as they were.  The error message is written when a
    selection exists; without a selection the request is dropped without a
    message. *)
Theorem crop_rejects_invalid (width height x y : number) (s : State) :
  width <= 0 \/ height <= 0 ->
  let s' := crop width height x y s in
  undoStack s' = undoStack s
  /\ redoStack s' = redoStack s
  /\ historyEvents s' = historyEvents s
  /\ world s' = with_console (console (world s')) (world s)
  /\ console (world s')
     = if is_some (selectionRectRef (world s))
       then console (world s) ++ [invalid_crop_message]
       else console (world s).
Proof.
  intros H s'. subst s'. unfold crop.
  destruct s as [w u r m ev]. simpl.
  destruct (selectionRectRef w) as [sel|] eqn:Hsel; simpl.
  - assert (Hb : (width <=? 0) || (height <=? 0) = true).
    { apply orb_true_iff. destruct H; [left|right]; by apply Z.leb_le. }
    rewrite Hb. simpl. repeat split; reflexivity.
  - repeat split; try reflexivity. destruct w; reflexivity.
Qed.

(** A crop of width 0 with a selection present: only the message is new. *)
Lemma crop_rejects_invalid_witness :
  (0 <= 0 \/ 300 <= 0)
  /\ world (crop 0 300 100 50 selected_state)
     = with_console [invalid_crop_message] selected_world
  /\ undoStack (crop 0 300 100 50 selected_state) = [].
Proof.
  split; [left; lia|].
  destruct (crop_rejects_invalid 0 300 100 50 selected_state) as (Hu & _ & _ & Hw & Hc).
  { left. lia. }
  split; [|exact Hu]. rewrite Hw, Hc. reflexivity.
Defined.

(** C9, as stated, fails on the reporting: with no selection rectangle an
    invalid crop returns at the first guard and writes no message. *)
Lemma crop_invalid_unreported :
  let s := new_HistoryManager 50 one_layer_world in
  selectionRectRef (world s) = None
  /\ crop 0 0 0 0 s = s
  /\ console (world (crop 0 0 0 0 s)) = []
  /\ console (world (crop 0 0 0 0 s))
     <> console (world s) ++ [invalid_crop_message].
Proof.
  repeat split. vm_compute. discriminate.
Qed.

(** ** Round trip of execute and undo *)

Lemma doc_inv (w1 w2 : World) :
  doc w1 = doc w2 ->
  objects w1 = objects w2 /\ heap w1 = heap w2
  /\ layerMap w1 = layerMap w2 /\ documentOrigin w1 = documentOrigin w2.
Proof. unfold doc. intros H. injection H as -> -> -> ->. auto. Qed.

(** Commands that are reversible, and where. *)

Lemma reversible_SetMask (layerId : string) (old new : option string)
    (w : World) :
  reversible (SetMaskAction layerId old new) w.
Proof. reflexivity. Qed.

Lemma reversible_ToggleMask (layerId : string) (w : World) :
  reversible (ToggleMaskAction layerId) w.
Proof. reflexivity. Qed.

Lemma reversible_CreateSelection (sel : ObjId) (w : World) :
  ~ In sel (objects w) -> reversible (CreateSelectionAction sel None) w.
Proof.
  intros Hsel. unfold reversible, doc. simpl.
  by rewrite remove_first_push.
Qed.

Lemma reversible_ModifySelection (sel : ObjId) (prev new : FabricObject.t)
    (w : World) :
  heap w !! sel = Some prev -> reversible (ModifySelectionAction sel prev new) w.
Proof.
  intros Hsel. unfold reversible, doc. simpl. f_equal. f_equal. f_equal.
  apply map_eq. intros i. destruct (decide (sel = i)) as [<-|Hne].
  - rewrite !lookup_alter_eq, Hsel. reflexivity.
  - by rewrite !lookup_alter_ne.
Qed.

Lemma reversible_ClearSelection (sel : ObjId) (l : list ObjId) (w : World) :
  objects w = l ++ [sel] -> ~ In sel l -> reversible (ClearSelectionAction sel) w.
Proof.
  intros Hobj Hsel. unfold reversible, doc. simpl. rewrite Hobj.
  fold (push l sel). by rewrite remove_first_push.
Qed.

Lemma remove_first_snoc (x : ObjId) (l : list ObjId) :
  ~ In x l -> remove_first x (l ++ [x]) = l.
Proof. apply remove_first_push. Qed.

(** A crop of the topmost image under the selection rectangle. *)
Lemma reversible_Crop (c : CropAction.t) (prev new : ObjId) (layer : string)
    (l : list ObjId) (w : World) :
  CropAction.previousImage c = Some prev ->
  CropAction.newImage c = Some new ->
  CropAction.activeLayerId c = Some layer ->
  truthy_str (Some layer) = true ->
  objects w = l ++ [prev; CropAction.selection c] ->
  ~ In (CropAction.selection c) (l ++ [prev]) ->
  ~ In prev l -> ~ In new l ->
  layerMap w !! layer = Some prev ->
  reversible (CropAction c) w.
Proof.
  intros Hp Hn Hl Ht Hobj Hsel Hprev Hnew Hmap.
  unfold reversible, doc. cbn [exec_action undo_action].
  rewrite Hp, Hn, Hl. unfold crop_swap. rewrite Ht. simpl.
  rewrite Hobj. change (l ++ [prev; CropAction.selection c])
    with (l ++ [prev] ++ [CropAction.selection c]).
  rewrite app_assoc, (remove_first_snoc _ _ Hsel).
  rewrite (remove_first_snoc _ _ Hprev). unfold push.
  rewrite (remove_first_snoc _ _ Hnew).
  rewrite insert_insert_eq, (insert_id _ _ _ Hmap).
  by rewrite <- app_assoc.
Qed.





(** *** Stacking order aside *)

Lemma remove_first_In_perm (x : ObjId) (l : list ObjId) :
  In x l -> x :: remove_first x l ≡ₚ l.
Proof.
  induction l as [|y l IH]; simpl; [tauto|].
  intros [->|H].
  - by rewrite Nat.eqb_refl.
  - destruct (Nat.eqb_spec x y) as [->|Hne]; [reflexivity|].
    rewrite Permutation_swap. by rewrite IH.
Qed.

Lemma remove_first_perm (x : ObjId) (l l' : list ObjId) :
  l ≡ₚ l' -> remove_first x l ≡ₚ remove_first x l'.
Proof.
  intros H. destruct (in_dec Nat.eq_dec x l) as [Hin|Hout].
  - assert (Hin' : In x l') by (eapply Permutation_in; eauto).
    apply (Permutation_cons_inv (a := x)).
    by rewrite (remove_first_In_perm _ _ Hin), (remove_first_In_perm _ _ Hin').
  - assert (Hout' : ~ In x l').
    { intros Hin'. apply Hout. eapply Permutation_in; [symmetry|]; eauto. }
    by rewrite (remove_first_absent _ _ Hout), (remove_first_absent _ _ Hout').
Qed.

#[local] Instance remove_first_proper (x : ObjId) :
  Proper ((≡ₚ) ==> (≡ₚ)) (remove_first x).
Proof. intros l l' H. by apply remove_first_perm. Qed.

#[local] Instance push_proper :
  Proper ((≡ₚ) ==> (=) ==> (≡ₚ)) (@push ObjId).
Proof. intros l l' H x ? <-. unfold push. by rewrite H. Qed.


Lemma push_remove_first_perm (x : ObjId) (l : list ObjId) :
  In x l -> push (remove_first x l) x ≡ₚ l.
Proof.
  intros H. unfold push. rewrite Permutation_app_comm. simpl.
  by apply remove_first_In_perm.
Qed.


Lemma same_doc_sym (w1 w2 : World) : same_doc w1 w2 -> same_doc w2 w1.
Proof. unfold same_doc. intros (Ho & Hh & Hl & Hd). by rewrite Ho, Hh, Hl, Hd. Qed.











(** ** The layer effect only re-stacks *)

Lemma bring_restacks (o : ObjId) (l0 : list ObjId) (w : World) :
  In o l0 ->
  exists l', l' ≡ₚ l0
             /\ canvas_bringObjectToFront o (with_objects l0 w) = with_objects l' w.
Proof.
  intros Hin. unfold canvas_bringObjectToFront.
  change (objects (with_objects l0 w)) with l0.
  assert (Hm : exists l', l' ≡ₚ l0
                 /\ with_objects (push (remove_first o l0) o) (with_objects l0 w)
                    = with_objects l' w).
  { exists (push (remove_first o l0) o).
    split; [by apply push_remove_first_perm|reflexivity]. }
  destruct (last l0) as [t|]; [|exact Hm].
  destruct (Nat.eqb o t); [|exact Hm].
  by exists l0.
Qed.

Lemma bring_layers_restack (ls : list Layer.t) (l0 : list ObjId) (w : World) :
  (forall id obj, layerMap w !! id = Some obj -> In obj l0) ->
  exists l', l' ≡ₚ l0
    /\ fold_left
         (fun w layer =>
            match layerMap w !! Layer.id layer with
            | Some obj => canvas_bringObjectToFront obj w
            | None => w
            end) ls (with_objects l0 w)
       = with_objects l' w.
Proof.
  revert l0. induction ls as [|layer ls IH]; intros l0 Hb; simpl.
  - by exists l0.
  - change (layerMap (with_objects l0 w)) with (layerMap w).
    destruct (layerMap w !! Layer.id layer) as [obj|] eqn:Hobj.
    + destruct (bring_restacks obj l0 w (Hb _ _ Hobj)) as (l1 & Hp1 & ->).
      destruct (IH l1) as (l2 & Hp2 & ->).
      { intros id o Ho. eapply Permutation_in; [symmetry; exact Hp1|eauto]. }
      exists l2. split; [by rewrite Hp2|reflexivity].
    + by apply IH.
Qed.

(** While every binding names a layer of the store and an object on the
    canvas, and the selection rectangle is on the canvas, the layer effect
    changes the stacking order and nothing else. *)
Lemma layers_effect_restacks (w : World) :
  live_bindings w ->
  exists l, l ≡ₚ objects w /\ layers_effect w = with_objects l w.
Proof.
  intros [Hb Hs]. unfold layers_effect.
  assert (Hstale : filter (fun b : string * ObjId => b.1 ∉ layer_ids (layers w))
                     (layerMap w) = ∅).
  { apply map_empty_filter_2. intros id obj Hobj Hn. apply Hn. simpl.
    apply list_elem_of_In. by apply (Hb id obj). }
  rewrite Hstale, map_to_list_empty. simpl foldr.
  assert (Hkeep : filter (fun b : string * ObjId => b.1 ∈ layer_ids (layers w))
                    (layerMap w) = layerMap w).
  { apply map_filter_id. intros id obj Hobj. simpl.
    apply list_elem_of_In. by apply (Hb id obj). }
  change (layerMap (with_objects (objects w) w)) with (layerMap w).
  rewrite Hkeep.
  assert (Hw : with_layerMap (layerMap w) (with_objects (objects w) w)
               = with_objects (objects w) w) by reflexivity.
  rewrite Hw.
  change (layers (with_objects (objects w) w)) with (layers w).
  destruct (bring_layers_restack (rev (layers w)) (objects w) w)
    as (l1 & Hp1 & ->).
  { intros id obj Hobj. by apply (Hb id obj). }
  change (selectionRectRef (with_objects l1 w)) with (selectionRectRef w).
  destruct (selectionRectRef w) as [r|] eqn:Hr.
  - destruct (bring_restacks r l1 w) as (l2 & Hp2 & ->).
    { eapply Permutation_in; [symmetry; exact Hp1|by apply Hs]. }
    exists l2. split; [by rewrite Hp2|reflexivity].
  - by exists l1.
Qed.

(** On a canvas that holds the upper image below the lower one, the effect
    puts the images in layer order and the selection rectangle on top. *)
Lemma layers_effect_orders_layers :
  objects (layers_effect (with_objects [1%nat; 0%nat; 2%nat] two_image_world))
  = [0%nat; 1%nat; 2%nat]
  /\ layers_effect two_image_world = two_image_world.
Proof. split; vm_compute; reflexivity. Qed.

(** The effect is one of the re-stackings of [EvRestack]. *)
Lemma layers_effect_event (s : State) :
  live_bindings (world s) ->
  exists order,
    event s (EvRestack order) = with_world (layers_effect (world s)) s.
Proof.
  intros H. destruct (layers_effect_restacks _ H) as (l & Hp & ->).
  exists l. simpl. by rewrite bool_decide_eq_true_2.
Qed.

(** The stacking order is not part of what a round trip restores: a crop of
    the lower of two images, undone, leaves that image above the other. *)
Lemma crop_undo_restacks :
  let s := new_HistoryManager 50 two_image_world in
  objects (world s) = [0%nat; 1%nat; 2%nat]
  /\ objects (world (undo (crop 400 300 100 50 s))) = [1%nat; 0%nat; 2%nat].
Proof. split; vm_compute; reflexivity. Qed.

(** A selection drag is recorded when it is over: the command runs on a
    rectangle that already has the new fields, and its undo goes back to
    the fields from before the drag, not to those the command found. *)
Lemma drag_undo_restores_drag_start :
  let s := st (object_modified (Some 1%nat) dragged_selection) in
  undoStack s
  = [ModifySelectionAction 1%nat (FabricObject.mk 100 50 1 1 400 300)
       (FabricObject.mk 120 70 1 1 400 300)]
  /\ heap (world (st dragged_selection)) !! 1%nat
     = Some (FabricObject.mk 120 70 1 1 400 300)
  /\ heap (world (undo s)) !! 1%nat
     = Some (FabricObject.mk 100 50 1 1 400 300).
Proof. repeat split; vm_compute; reflexivity. Qed.

(** A command whose target is missing does not give back what it found:
    clearing a rectangle that is not on the canvas takes nothing off, and
    the undo adds the rectangle. *)
Lemma clear_absent_undo_adds :
  let w := one_layer_world in
  let c := ClearSelectionAction 5%nat in
  objects w = [0%nat]
  /\ objects (exec_action c w) = [0%nat]
  /\ objects (undo_action c (exec_action c w)) = [0%nat; 5%nat].
Proof. repeat split. Qed.



(** * Further properties *)

(** ** Layer store *)

Lemma string_eqb_false (a b : string) : string_eqb a b = false <-> a <> b.
Proof. unfold string_eqb. apply bool_decide_eq_false. Qed.

Lemma layer_ids_filter_In (p : Layer.t -> bool) (ls : list Layer.t) (a : string) :
  In a (layer_ids (List.filter p ls)) -> In a (layer_ids ls).
Proof.
  unfold layer_ids. rewrite !in_map_iff. intros (l & Hl & Hin).
  apply filter_In in Hin as [Hin _]. eauto.
Qed.

Lemma layer_ids_filter_NoDup (p : Layer.t -> bool) (ls : list Layer.t) :
  List.NoDup (layer_ids ls) -> List.NoDup (layer_ids (List.filter p ls)).
Proof.
  induction ls as [|l ls IH]; simpl; [auto|].
  intros H. apply NoDup_cons_iff in H as [Hl Hls]. destruct (p l); simpl; [|auto].
  apply NoDup_cons_iff. split; [|auto].
  intros Hin. apply Hl. exact (layer_ids_filter_In p ls _ Hin).
Qed.

(** X1.  [removeLayer] keeps a well-formed store well-formed: ids stay
    distinct and the active id still names a layer (or is null).  The
    removed id is gone, every other layer stays, and the active id is kept
    unless it was the removed one, in which case the first remaining layer
    becomes active. *)
Theorem removeLayer_ok (id : string) (s : LayerState.t) :
  store_ok s ->
  let s' := removeLayer id s in
  store_ok s'
  /\ ~ In id (layer_ids (LayerState.layers s'))
  /\ (forall l, In l (LayerState.layers s')
                <-> In l (LayerState.layers s) /\ Layer.id l <> id)
  /\ LayerState.activeLayerId s'
     = (if bool_decide (LayerState.activeLayerId s = Some id)
        then head (layer_ids (LayerState.layers s'))
        else LayerState.activeLayerId s).
Proof.
  intros [Hnd Hact] s'. subst s'. unfold removeLayer. simpl.
  set (p := fun l => negb (string_eqb (Layer.id l) id)).
  assert (Hin : forall l, In l (List.filter p (LayerState.layers s))
                          <-> In l (LayerState.layers s) /\ Layer.id l <> id).
  { intros l. rewrite filter_In. unfold p. rewrite negb_true_iff.
    by rewrite string_eqb_false. }
  split; [split|split; [|split]].
  - by apply layer_ids_filter_NoDup.
  - destruct (LayerState.activeLayerId s) as [a|]; [|exact I].
    destruct (string_eqb a id) eqn:E.
    + destruct (List.filter p (LayerState.layers s)) as [|l ls]; [exact I|].
      simpl. by left.
    + apply string_eqb_false in E. unfold layer_ids in *.
      apply in_map_iff in Hact as (l & Hl & Hlin). apply in_map_iff.
      exists l. split; [exact Hl|]. apply Hin. split; [exact Hlin|congruence].
  - unfold layer_ids. rewrite in_map_iff. intros (l & Hl & Hlin).
    apply Hin in Hlin as [_ Hne]. congruence.
  - exact Hin.
  - destruct (LayerState.activeLayerId s) as [a|].
    + destruct (string_eqb a id) eqn:E.
      * apply string_eqb_eq in E. subst a. rewrite bool_decide_eq_true_2 by done.
        by destruct (List.filter p (LayerState.layers s)).
      * apply string_eqb_false in E.
        rewrite bool_decide_eq_false_2; [done|congruence].
    + by rewrite bool_decide_eq_false_2.
Qed.

Lemma two_layer_store_ok : store_ok two_layer_store.
Proof.
  split; [|by left]. unfold layer_ids. simpl.
  apply NoDup_cons_iff. split.
  - simpl. intros [H|[]]. discriminate H.
  - apply NoDup_cons_iff. split; [intros []|constructor].
Qed.

(** Removing the active layer "A" makes "B" active. *)
Lemma removeLayer_ok_witness :
  store_ok two_layer_store
  /\ LayerState.activeLayerId (removeLayer "A" two_layer_store) = Some "B"%string.
Proof.
  split; [exact two_layer_store_ok|].
  destruct (removeLayer_ok "A" two_layer_store two_layer_store_ok)
    as (_ & _ & _ & H).
  rewrite H. reflexivity.
Defined.

(** X2.  Adding a layer under an unused id and removing it again gives back
    the layer list; the active layer afterwards is the first layer of that
    list, whichever layer was active before the addition. *)
Theorem addLayer_removeLayer (layerData : LayerData.t) (uuid : string)
    (s : LayerState.t) :
  ~ In uuid (layer_ids (LayerState.layers s)) ->
  let '(id, s1) := addLayer layerData uuid s in
  id = uuid
  /\ LayerState.activeLayerId s1 = Some uuid
  /\ head (layer_ids (LayerState.layers s1)) = Some uuid
  /\ LayerState.layers (removeLayer id s1) = LayerState.layers s
  /\ LayerState.activeLayerId (removeLayer id s1)
     = head (layer_ids (LayerState.layers s)).
Proof.
  intros Hfresh. unfold addLayer. cbn [Layer.id].
  assert (Hf : List.filter (fun l => negb (string_eqb (Layer.id l) uuid))
                 (LayerState.layers s) = LayerState.layers s).
  { revert Hfresh. unfold layer_ids.
    induction (LayerState.layers s) as [|l ls IH]; simpl; [auto|].
    intros H. destruct (string_eqb (Layer.id l) uuid) eqn:E.
    - apply string_eqb_eq in E. exfalso. apply H. by left.
    - simpl. f_equal. apply IH. intros Hin. apply H. by right. }
  assert (Hu : string_eqb uuid uuid = true) by by apply string_eqb_eq.
  split; [reflexivity|]. split; [reflexivity|]. split; [reflexivity|].
  unfold removeLayer. simpl. rewrite Hu. simpl. rewrite Hf.
  split; [reflexivity|]. by destruct (LayerState.layers s).
Qed.

(** Adding "C" to the sample store, where "A" is active, and removing it:
    "A" is active again only because it is the first layer. *)
Lemma addLayer_removeLayer_witness :
  ~ In "C"%string (layer_ids (LayerState.layers two_layer_store))
  /\ LayerState.layers
       (removeLayer "C"
          (snd (addLayer (LayerData.mk "c.png" None None None None) "C"
                  two_layer_store)))
     = two_layers.
Proof.
  assert (H : ~ In "C"%string (layer_ids (LayerState.layers two_layer_store))).
  { simpl. intros [E|[E|[]]]; discriminate E. }
  split; [exact H|].
  pose proof (addLayer_removeLayer (LayerData.mk "c.png" None None None None)
                "C" two_layer_store H) as Hx.
  destruct (addLayer (LayerData.mk "c.png" None None None None) "C"
              two_layer_store) as [id s1] eqn:E.
  destruct Hx as (Hid & _ & _ & Hl & _). subst id. exact Hl.
Defined.

Lemma splice_start_in_range (i : number) (len : nat) :
  0 <= i <= Z.of_nat len -> splice_start i len = Z.to_nat i.
Proof.
  intros H. unfold splice_start. destruct (Z.ltb_spec i 0); lia.
Qed.

Lemma splice_start_le (i : number) (len : nat) : (splice_start i len <= len)%nat.
Proof. unfold splice_start. destruct (Z.ltb_spec i 0); lia. Qed.

Lemma splice_insert_Permutation {A} (j : nat) (x : A) (l : list A) :
  take j l ++ x :: drop j l ≡ₚ x :: l.
Proof.
  rewrite <- Permutation_middle. by rewrite take_drop.
Qed.

(** X3.  [reorderLayers] with a source index inside the list only permutes
    the layers: none is lost, none is duplicated, and the moved layer sits
    at the target index when that index is inside the list too.  A source
    index at or past the end corrupts the list (an [undefined] entry). *)
Theorem reorderLayers_permutes (fromIndex toIndex : number)
    (layers : list Layer.t) (past : nat) :
  0 <= fromIndex < Z.of_nat (length layers) ->
  (exists layers',
      reorderLayers fromIndex toIndex layers = Some layers'
      /\ layers' ≡ₚ layers
      /\ length layers' = length layers
      /\ (0 <= toIndex < Z.of_nat (length layers) ->
          layers' !! Z.to_nat toIndex = layers !! Z.to_nat fromIndex))
  /\ reorderLayers (Z.of_nat (length layers + past)) toIndex layers = None.
Proof.
  intros H. split.
  - unfold reorderLayers.
    rewrite splice_start_in_range by lia.
    destruct (lookup_lt_is_Some_2 layers (Z.to_nat fromIndex)) as [x Hx]; [lia|].
    rewrite Hx. eexists. split; [reflexivity|].
    set (l1 := delete (Z.to_nat fromIndex) layers).
    assert (Hlen : length l1 = (length layers - 1)%nat).
    { subst l1. rewrite length_delete by eauto. lia. }
    split; [|split].
    + rewrite splice_insert_Permutation. subst l1.
      symmetry. by apply delete_Permutation.
    + rewrite length_app. simpl. rewrite length_take, length_drop.
      pose proof (splice_start_le toIndex (length l1)). lia.
    + intros Ht. rewrite splice_start_in_range by lia.
      apply list_lookup_middle.
      rewrite length_take. lia.
  - unfold reorderLayers.
    assert (E : splice_start (Z.of_nat (length layers + past)) (length layers)
                = length layers).
    { unfold splice_start.
      destruct (Z.ltb_spec (Z.of_nat (length layers + past)) 0); lia. }
    rewrite E. by rewrite lookup_ge_None_2.
Qed.

(** Dragging the first sample layer onto the second row; and a source index
    of 2 or 5 on the two-layer list. *)
Lemma reorderLayers_permutes_witness :
  0 <= 0 < Z.of_nat (length two_layers)
  /\ reorderLayers 0 1 two_layers = Some (rev two_layers)
  /\ reorderLayers 5 1 two_layers = None.
Proof.
  assert (H0 : 0 <= 0 < Z.of_nat (length two_layers)) by (simpl; lia).
  split; [exact H0|]. split; [reflexivity|].
  exact (proj2 (reorderLayers_permutes 0 1 two_layers 3 H0)).
Defined.

(** X4.  With both indices inside the list, moving a layer from one index to
    the other and back gives the original list. *)
Theorem reorderLayers_round_trip (fromIndex toIndex : number)
    (layers : list Layer.t) :
  0 <= fromIndex < Z.of_nat (length layers) ->
  0 <= toIndex < Z.of_nat (length layers) ->
  exists layers',
    reorderLayers fromIndex toIndex layers = Some layers'
    /\ reorderLayers toIndex fromIndex layers' = Some layers.
Proof.
  intros Hf Ht. unfold reorderLayers at 1.
  rewrite splice_start_in_range by lia.
  destruct (lookup_lt_is_Some_2 layers (Z.to_nat fromIndex)) as [x Hx]; [lia|].
  rewrite Hx.
  set (i := Z.to_nat fromIndex) in *. set (j := Z.to_nat toIndex).
  set (l1 := delete i layers).
  assert (Hlen : length l1 = (length layers - 1)%nat).
  { subst l1. rewrite length_delete by eauto. lia. }
  rewrite splice_start_in_range by lia. fold j.
  eexists. split; [reflexivity|].
  assert (Htk : length (take j l1) = j) by (rewrite length_take; lia).
  unfold reorderLayers.
  assert (Hl' : length (take j l1 ++ x :: drop j l1) = length layers).
  { rewrite length_app. simpl. rewrite length_take, length_drop. lia. }
  rewrite Hl', splice_start_in_range by lia. fold j.
  rewrite (list_lookup_middle (take j l1) (drop j l1) x j) by done.
  replace (delete j (take j l1 ++ x :: drop j l1)) with l1.
  2:{ rewrite <- Htk at 1. rewrite delete_middle. by rewrite take_drop. }
  rewrite Hlen, splice_start_in_range by lia. fold i.
  f_equal. subst l1. rewrite delete_take_drop.
  rewrite take_app_le by (rewrite length_take; lia).
  rewrite take_take, Nat.min_id.
  rewrite drop_app_ge by (rewrite length_take; lia).
  rewrite length_take, Nat.min_l by lia. rewrite Nat.sub_diag, drop_0.
  by apply take_drop_middle.
Qed.

(** Moving the first of two layers to the second place and back. *)
Lemma reorderLayers_round_trip_witness :
  0 <= 0 < Z.of_nat (length two_layers)
  /\ 0 <= 1 < Z.of_nat (length two_layers)
  /\ exists layers',
       reorderLayers 0 1 two_layers = Some layers'
       /\ reorderLayers 1 0 layers' = Some two_layers.
Proof.
  assert (H0 : 0 <= 0 < Z.of_nat (length two_layers)) by (simpl; lia).
  assert (H1 : 0 <= 1 < Z.of_nat (length two_layers)) by (simpl; lia).
  split; [exact H0|]. split; [exact H1|].
  exact (reorderLayers_round_trip 0 1 two_layers H0 H1).
Defined.

Lemma setLayerMask1_id (layerId : string) (d : option string) (l : Layer.t) :
  Layer.id (setLayerMask1 layerId d l) = Layer.id l.
Proof.
  unfold setLayerMask1. destruct (negb _); [reflexivity|]. by destruct d.
Qed.

Lemma setLayerMask1_overwrite (layerId : string) (d1 d2 : option string)
    (l : Layer.t) :
  setLayerMask1 layerId d2 (setLayerMask1 layerId d1 l) = setLayerMask1 layerId d2 l.
Proof.
  unfold setLayerMask1.
  destruct (negb (string_eqb (Layer.id l) layerId)) eqn:E.
  - by rewrite E.
  - destruct d1, d2; simpl; by rewrite E.
Qed.

(** X5.  [setLayerMask] for one layer id: the last write wins; ids and
    order of the layers are kept; afterwards every layer with the id holds
    exactly the given data with the mask switched on (or no mask, for
    null), whatever mask and visibility it had before; and an id that names
    no layer changes nothing. *)
Theorem setLayerMask_last_write (layerId : string) (d1 d2 : option string)
    (ls : list Layer.t) :
  setLayerMask layerId d2 (setLayerMask layerId d1 ls) = setLayerMask layerId d2 ls
  /\ layer_ids (setLayerMask layerId d2 ls) = layer_ids ls
  /\ (forall l, In l (setLayerMask layerId d2 ls) -> Layer.id l = layerId ->
                Layer.mask l = option_map (fun d => Mask.mk d true) d2)
  /\ (~ In layerId (layer_ids ls) -> setLayerMask layerId d2 ls = ls).
Proof.
  unfold setLayerMask, layer_ids. split; [|split; [|split]].
  - rewrite map_map. apply map_ext. intros l. apply setLayerMask1_overwrite.
  - rewrite map_map. apply map_ext. intros l. apply setLayerMask1_id.
  - intros l Hin Hid. apply in_map_iff in Hin as (l0 & <- & _).
    rewrite setLayerMask1_id in Hid. unfold setLayerMask1.
    apply string_eqb_eq in Hid. rewrite Hid. simpl. by destruct d2.
  - intros Hno. rewrite <- (map_id ls) at 2. apply map_ext_in.
    intros l Hin. unfold setLayerMask1.
    destruct (string_eqb (Layer.id l) layerId) eqn:E; [|reflexivity].
    apply string_eqb_eq in E. exfalso. apply Hno. apply in_map_iff. eauto.
Qed.

Lemma object_get_assign_eq (k : string) (v : number) (o : list (string * number)) :
  object_get k (object_assign k v o) = Some v.
Proof.
  assert (Hk : string_eqb k k = true) by by apply string_eqb_eq.
  induction o as [|[k' v'] o IH]; simpl; [by rewrite Hk|].
  destruct (string_eqb k' k) eqn:E; simpl; [by rewrite Hk|]. by rewrite E.
Qed.

Lemma object_get_assign_ne (k k' : string) (v : number)
    (o : list (string * number)) :
  k' <> k -> object_get k' (object_assign k v o) = object_get k' o.
Proof.
  intros Hne.
  assert (Hk : string_eqb k k' = false) by (apply string_eqb_false; congruence).
  induction o as [|[k0 v0] o IH]; simpl; [by rewrite Hk|].
  destruct (string_eqb k0 k) eqn:E; simpl.
  - apply string_eqb_eq in E. subst k0. by rewrite Hk.
  - by rewrite IH.
Qed.

Lemma object_assign_keys (k : string) (v : number) (o : list (string * number)) :
  List.NoDup (map fst o) -> List.NoDup (map fst (object_assign k v o)).
Proof.
  assert (Hin : forall o k0, In k0 (map fst (object_assign k v o)) ->
                             k0 = k \/ In k0 (map fst o)).
  { clear o. induction o as [|[k1 v1] o IH]; simpl; intros k0 H.
    - destruct H as [H|[]]; auto.
    - destruct (string_eqb k1 k) eqn:E; simpl in H.
      + destruct H as [H|H]; auto.
      + destruct H as [H|H]; [auto|]. destruct (IH _ H); auto. }
  induction o as [|[k' v'] o IH]; simpl; intros Hnd.
  - constructor; [intros []|constructor].
  - apply NoDup_cons_iff in Hnd as [Hk' Hnd].
    destruct (string_eqb k' k) eqn:E; simpl.
    + apply string_eqb_eq in E. subst k'. by apply NoDup_cons_iff.
    + apply string_eqb_false in E. apply NoDup_cons_iff. split; [|by apply IH].
      intros H. destruct (Hin _ _ H); [congruence|auto].
Qed.

(** X6.  [setLayerFilter] writes one filter of the layers with the given
    id: reading that filter back gives the written value, every other
    filter reads as before, the filter names stay distinct, the layer's
    other fields and all other layers are as before. *)
Theorem setLayerFilter_read_back (layerId filterName : string) (value : number)
    (ls : list Layer.t) (i : nat) (l : Layer.t) :
  ls !! i = Some l ->
  exists l',
    setLayerFilter layerId filterName value ls !! i = Some l'
    /\ with_filters None l' = with_filters None l
    /\ (Layer.id l <> layerId -> l' = l)
    /\ (Layer.id l = layerId ->
        object_get filterName (default [] (Layer.filters l')) = Some value
        /\ (forall k, k <> filterName ->
                      object_get k (default [] (Layer.filters l'))
                      = object_get k (default [] (Layer.filters l)))
        /\ (List.NoDup (map fst (default [] (Layer.filters l))) ->
            List.NoDup (map fst (default [] (Layer.filters l'))))).
Proof.
  intros Hl. unfold setLayerFilter. eexists.
  split; [apply map_lookup_Some, Hl|].
  destruct (string_eqb (Layer.id l) layerId) eqn:E; simpl.
  - split; [reflexivity|]. split.
    + apply string_eqb_eq in E. congruence.
    + intros _. split; [apply object_get_assign_eq|].
      split; [intros k Hk; by apply object_get_assign_ne|].
      apply object_assign_keys.
  - split; [reflexivity|]. split; [reflexivity|].
    apply string_eqb_false in E. congruence.
Qed.

(** Writing brightness 3 on layer "A" of the sample store. *)
Lemma setLayerFilter_read_back_witness :
  two_layers !! 0%nat = head two_layers
  /\ exists l',
       setLayerFilter "A" "brightness" 3 two_layers !! 0%nat = Some l'
       /\ object_get "brightness" (default [] (Layer.filters l')) = Some 3.
Proof.
  split; [reflexivity|].
  destruct (setLayerFilter_read_back "A" "brightness" 3 two_layers 0
              (Layer.mk "A" "a.png" true false 1 "normal" None None None None)
              eq_refl) as (l' & H1 & _ & _ & H2).
  exists l'. split; [exact H1|]. by apply H2.
Defined.

Lemma layer_ids_inj (ls : list Layer.t) (l1 l2 : Layer.t) :
  List.NoDup (layer_ids ls) -> In l1 ls -> In l2 ls ->
  Layer.id l1 = Layer.id l2 -> l1 = l2.
Proof.
  unfold layer_ids. induction ls as [|l ls IH]; simpl; [intros _ []|].
  intros Hnd H1 H2 Hid. apply NoDup_cons_iff in Hnd as [Hl Hnd].
  destruct H1 as [<-|H1], H2 as [<-|H2]; auto.
  - exfalso. apply Hl. rewrite Hid. by apply in_map.
  - exfalso. apply Hl. rewrite <- Hid. by apply in_map.
Qed.

Lemma updateLayer_twice_restore (u1 u2 : LayerUpdate.t) (layer : Layer.t)
    (ls : list Layer.t) :
  List.NoDup (layer_ids ls) -> In layer ls ->
  LayerUpdate.id u1 = None ->
  spread_updates (spread_updates layer u1) u2 = layer ->
  updateLayer (Layer.id layer) u2 (updateLayer (Layer.id layer) u1 ls) = ls.
Proof.
  intros Hnd Hin Hu1 Hback. unfold updateLayer. rewrite map_map.
  rewrite <- (map_id ls) at 2. apply map_ext_in. intros l Hl.
  destruct (string_eqb (Layer.id l) (Layer.id layer)) eqn:E.
  - apply string_eqb_eq in E.
    assert (l = layer) by (eapply layer_ids_inj; eauto). subst l.
    assert (Hid : Layer.id (spread_updates layer u1) = Layer.id layer).
    { unfold spread_updates. simpl. by rewrite Hu1. }
    rewrite Hid. assert (Hk : string_eqb (Layer.id layer) (Layer.id layer) = true)
      by by apply string_eqb_eq.
    by rewrite Hk.
  - by rewrite E.
Qed.

Lemma updateLayer_lookup_self (u : LayerUpdate.t) (ls : list Layer.t)
    (index : nat) (layer : Layer.t) :
  ls !! index = Some layer ->
  updateLayer (Layer.id layer) u ls !! index = Some (spread_updates layer u).
Proof.
  intros Hl. unfold updateLayer. rewrite (map_lookup_Some _ _ _ _ Hl).
  assert (Hk : string_eqb (Layer.id layer) (Layer.id layer) = true)
    by by apply string_eqb_eq.
  by rewrite Hk.
Qed.

(** X7.  With distinct layer ids, clicking a row's eye button twice, or its
    lock button twice, gives back the layer list. *)
Theorem click_twice_restores (index : nat) (ls : list Layer.t) :
  List.NoDup (layer_ids ls) ->
  click_eye index (click_eye index ls) = ls
  /\ click_lock index (click_lock index ls) = ls.
Proof.
  intros Hnd. unfold click_eye, click_lock.
  destruct (ls !! index) as [layer|] eqn:Hl.
  2:{ rewrite Hl. split; reflexivity. }
  assert (Hin : In layer ls).
  { apply list_elem_of_In, list_elem_of_lookup. eauto. }
  rewrite !(updateLayer_lookup_self _ _ _ _ Hl).
  split.
  - apply (updateLayer_twice_restore
             (LayerUpdate.set_visible (negb (Layer.visible layer)))
             (LayerUpdate.set_visible
                (negb (Layer.visible
                         (spread_updates layer
                            (LayerUpdate.set_visible (negb (Layer.visible layer)))))))
             layer ls Hnd Hin eq_refl).
    destruct layer. unfold spread_updates. simpl. by rewrite negb_involutive.
  - apply (updateLayer_twice_restore
             (LayerUpdate.set_locked (negb (Layer.locked layer)))
             (LayerUpdate.set_locked
                (negb (Layer.locked
                         (spread_updates layer
                            (LayerUpdate.set_locked (negb (Layer.locked layer)))))))
             layer ls Hnd Hin eq_refl).
    destruct layer. unfold spread_updates. simpl. by rewrite negb_involutive.
Qed.

(** Two clicks on the eye (and on the lock) of the second sample layer. *)
Lemma click_twice_restores_witness :
  List.NoDup (layer_ids two_layers)
  /\ click_eye 1 (click_eye 1 two_layers) = two_layers
  /\ click_lock 1 (click_lock 1 two_layers) = two_layers.
Proof.
  split; [exact (proj1 two_layer_store_ok)|].
  exact (click_twice_restores 1 two_layers (proj1 two_layer_store_ok)).
Defined.

(** ** History engine, continued *)

Lemma notifyChange_ok (s : State) : notified_ok (notifyChange s).
Proof.
  unfold notified_ok, notifyChange, push. simpl. by rewrite last_snoc.
Qed.

Lemma step_notified_ok (s : State) (o : Op) :
  notified_ok s -> notified_ok (step s o).
Proof.
  intros H. destruct o; simpl.
  - apply notifyChange_ok.
  - unfold undo. destruct (pop (undoStack s)) as [[a|] r]; [|exact H].
    apply notifyChange_ok.
  - unfold redo. destruct (pop (redoStack s)) as [[a|] r]; [|exact H].
    apply notifyChange_ok.
  - apply notifyChange_ok.
Qed.

(** X8.  After any sequence of [execute], [undo], [redo] and [clear] calls
    on a fresh engine, the most recent [onHistoryChange] notification
    carries the current answers of [canUndo] and [canRedo]; and as long as
    no notification was sent both stacks are empty.  A call that changes
    nothing (undo or redo on an empty stack) sends no notification. *)
Theorem notifications_track_state (ops : list Op) (maxSize : number)
    (w : World) (s : State) :
  notified_ok (run ops (new_HistoryManager maxSize w))
  /\ (undoStack s = [] -> historyEvents (undo s) = historyEvents s)
  /\ (redoStack s = [] -> historyEvents (redo s) = historyEvents s).
Proof.
  split; [|split].
  - assert (H : forall ops s0, notified_ok s0 -> notified_ok (run ops s0)).
    { clear. induction ops as [|o ops IH]; intros s0 H; simpl; [exact H|].
      apply IH, step_notified_ok, H. }
    apply H. unfold notified_ok. simpl. split; reflexivity.
  - intros H. unfold undo. by rewrite H.
  - intros H. unfold redo. by rewrite H.
Qed.

(** X9.  [undo] followed by [redo] leaves both stacks as they were, when
    there is something to undo: the undone command goes to the redo stack
    and comes back on top of the undo stack.  The world in between has the
    command undone, and afterwards has it applied again. *)
Theorem undo_then_redo (s : State) (a : Action) :
  last (undoStack s) = Some a ->
  undoStack (redo (undo s)) = undoStack s
  /\ redoStack (redo (undo s)) = redoStack s
  /\ redoStack (undo s) = redoStack s ++ [a]
  /\ world (undo s) = undo_action a (world s)
  /\ world (redo (undo s)) = exec_action a (undo_action a (world s)).
Proof.
  intros Ha.
  destruct (pop_spec (undoStack s)) as [[E _]|(r & a' & E & Hp)].
  { rewrite E in Ha. discriminate Ha. }
  assert (a' = a).
  { rewrite E in Ha. unfold push in Ha. rewrite last_snoc in Ha. congruence. }
  subst a'.
  assert (Hundo : undo s
                  = notifyChange
                      (mkState (undo_action a (world s)) r
                         (push (redoStack s) a) (maxHistorySize s)
                         (historyEvents s))).
  { unfold undo. by rewrite Hp. }
  rewrite Hundo. unfold redo.
  cbn [notifyChange redoStack undoStack world maxHistorySize historyEvents].
  rewrite pop_push.
  cbn [notifyChange redoStack undoStack world maxHistorySize historyEvents].
  rewrite E. repeat split.
Qed.

(** The engine after the 10-by-10 drag: its one command undone and redone. *)
Lemma undo_then_redo_witness :
  last (undoStack (st (mouse_up drag_10x10)))
  = Some (CreateSelectionAction 1%nat None)
  /\ undoStack (redo (undo (st (mouse_up drag_10x10))))
     = undoStack (st (mouse_up drag_10x10)).
Proof.
  split; [reflexivity|].
  exact (proj1 (undo_then_redo (st (mouse_up drag_10x10))
                  (CreateSelectionAction 1%nat None) eq_refl)).
Defined.

Lemma zero_depth_step (s : State) (o : Op) :
  maxHistorySize s <= 0 -> undoStack s = [] -> redoStack s = [] ->
  undoStack (step s o) = [] /\ redoStack (step s o) = []
  /\ world (step s o)
     = match o with OpExecute a => exec_action a (world s) | _ => world s end.
Proof.
  intros Hm Hu Hr. destruct o; simpl.
  - unfold execute. rewrite Hu. simpl.
    destruct (Z.ltb_spec (maxHistorySize s) (Z.of_nat 1)); [|lia]. repeat split.
  - unfold undo. rewrite Hu. simpl. auto.
  - unfold redo. rewrite Hr. simpl. auto.
  - repeat split.
Qed.

(** X10.  An engine built with a depth of zero or less applies every
    executed command but never records one: after any sequence of calls
    both stacks are empty, so nothing can be undone, and the world is the
    executed commands applied in order. *)
Theorem zero_depth_records_nothing (ops : list Op) (maxSize : number)
    (w : World) :
  maxSize <= 0 ->
  let s := run ops (new_HistoryManager maxSize w) in
  undoStack s = [] /\ redoStack s = []
  /\ canUndo s = false /\ canRedo s = false
  /\ world s = exec_actions (executed ops) w.
Proof.
  intros Hm s.
  assert (H : forall ops s0,
             maxHistorySize s0 <= 0 -> undoStack s0 = [] -> redoStack s0 = [] ->
             undoStack (run ops s0) = [] /\ redoStack (run ops s0) = []
             /\ world (run ops s0) = exec_actions (executed ops) (world s0)).
  { clear. induction ops as [|o ops IH]; intros s0 Hm Hu Hr; simpl; [auto|].
    destruct (zero_depth_step s0 o Hm Hu Hr) as (Hu' & Hr' & Hw').
    destruct (IH (step s0 o)) as (H1 & H2 & H3); auto.
    { by rewrite step_maxHistorySize. }
    split; [exact H1|]. split; [exact H2|]. rewrite H3, Hw'.
    by destruct o. }
  destruct (H ops (new_HistoryManager maxSize w) Hm eq_refl eq_refl)
    as (Hu & Hr & Hw).
  subst s. unfold canUndo, canRedo. rewrite Hu, Hr. repeat split. exact Hw.
Qed.

(** A depth-0 engine after an execute and an undo: the command stays
    applied. *)
Lemma zero_depth_records_nothing_witness :
  0 <= 0
  /\ world (run [OpExecute (ToggleMaskAction "L1"); OpUndo]
              (new_HistoryManager 0 one_layer_world))
     = exec_action (ToggleMaskAction "L1") one_layer_world.
Proof.
  split; [lia|].
  destruct (zero_depth_records_nothing
              [OpExecute (ToggleMaskAction "L1"); OpUndo] 0 one_layer_world)
    as (_ & _ & _ & _ & H); [lia|exact H].
Defined.

(** ** Canvas.tsx: mask commands and selection clearing *)

(** X11.  The mask operations that have nothing to work on do nothing at
    all, whatever the browser would have drawn: feathering by 0, inverting
    or feathering when the active layer has no mask data, creating a mask
    without a selection rectangle, and any of them without an active
    layer. *)
Theorem mask_operations_guarded (rendered : option string) (amount : number)
    (s : State) :
  featherMask 0 rendered s = s
  /\ (truthy_str (active_mask_dataUrl (world s)) = false ->
      invertMask rendered s = s /\ featherMask amount rendered s = s)
  /\ (selectionRectRef (world s) = None ->
      createMaskFromSelection rendered s = s)
  /\ (truthy_str (activeLayerId (world s)) = false ->
      invertMask rendered s = s /\ featherMask amount rendered s = s
      /\ createMaskFromSelection rendered s = s).
Proof.
  unfold featherMask, invertMask, createMaskFromSelection, generateMaskData.
  split; [|split; [|split]].
  - destruct (truthy_str (activeLayerId (world s))); simpl; [|reflexivity].
    by rewrite orb_true_r.
  - intros ->. destruct (truthy_str (activeLayerId (world s))); simpl; auto.
  - intros ->. destruct (truthy_str (activeLayerId (world s))); simpl; auto.
  - intros ->. simpl. auto.
Qed.



Lemma setLayerMask_overwrite (layerId : string) (d1 d2 : option string)
    (ls : list Layer.t) :
  setLayerMask layerId d2 (setLayerMask layerId d1 ls) = setLayerMask layerId d2 ls.
Proof.
  unfold setLayerMask. rewrite map_map. apply map_ext. intros l.
  apply setLayerMask1_overwrite.
Qed.



Lemma undo_execute (a : Action) (s : State) :
  1 <= maxHistorySize s ->
  world (undo (execute a s)) = undo_action a (exec_action a (world s))
  /\ redoStack (undo (execute a s)) = [a].
Proof.
  intros H. pose proof (execute_last a s H) as Hl.
  unfold undo. rewrite (pop_last _ _ Hl). split; reflexivity.
Qed.

Lemma find_layer_setLayerMask (a : string) (d : option string)
    (ls : list Layer.t) :
  find_layer a (setLayerMask a d ls)
  = option_map (setLayerMask1 a d) (find_layer a ls).
Proof.
  unfold find_layer, setLayerMask.
  induction ls as [|l ls IH]; simpl; [reflexivity|].
  rewrite setLayerMask1_id. by destruct (string_eqb (Layer.id l) a).
Qed.

(** X13.  Changing the active layer's mask through [applyMaskAction] and
    undoing it does not put the old layer list back as such: the undo
    writes the remembered mask data again, and a written mask is always
    switched on.  So the active layer comes back with its previous data
    and a visible mask, also when the mask was switched off before. *)
Theorem mask_undo_switches_on (new : option string) (a : string) (s : State)
    (l : Layer.t) (m : Mask.t) :
  activeLayerId (world s) = Some a -> truthy_str (Some a) = true ->
  1 <= maxHistorySize s ->
  find_layer a (layers (world s)) = Some l ->
  Layer.mask l = Some m -> truthy_str (Some (Mask.dataUrl m)) = true ->
  let s' := undo (applyMaskAction new s) in
  layers (world s')
  = setLayerMask a (Some (Mask.dataUrl m)) (layers (world s))
  /\ find_layer a (layers (world s'))
     = Some (Layer.with_mask (Some (Mask.mk (Mask.dataUrl m) true)) l).
Proof.
  intros Hact Ht Hmax Hfind Hmask Hd s'. subst s'.
  unfold applyMaskAction. rewrite Hact, Ht.
  assert (Hold : active_mask_dataUrl (world s) = Some (Mask.dataUrl m)).
  { unfold active_mask_dataUrl. by rewrite Hact, Hfind, Hmask. }
  rewrite Hold. unfold new_SetMaskAction. rewrite Hd.
  rewrite (proj1 (undo_execute _ s Hmax)).
  cbn [undo_action exec_action layers with_layers].
  rewrite setLayerMask_overwrite. split; [reflexivity|].
  rewrite find_layer_setLayerMask, Hfind. simpl.
  unfold setLayerMask1. unfold find_layer in Hfind.
  apply find_some in Hfind as [_ Hid]. by rewrite Hid.
Qed.

(** Layer "B" of the sample store has a switched-off mask; after a mask
    change and its undo the mask is on. *)
Lemma mask_undo_switches_on_witness :
  find_layer "B" (layers hidden_mask_world)
  = Some (Layer.mk "B" "b.png" false false 1 "normal" None None
            (Some (Mask.mk "data:m" false)) None)
  /\ find_layer "B"
       (layers (world (undo (applyMaskAction (Some "data:new"%string)
                               (new_HistoryManager 50 hidden_mask_world)))))
     = Some (Layer.mk "B" "b.png" false false 1 "normal" None None
               (Some (Mask.mk "data:m" true)) None).
Proof.
  split; [reflexivity|].
  assert (H : 1 <= maxHistorySize (new_HistoryManager 50 hidden_mask_world))
    by (simpl; lia).
  exact (proj2 (mask_undo_switches_on (Some "data:new"%string) "B"
                  (new_HistoryManager 50 hidden_mask_world)
                  (Layer.mk "B" "b.png" false false 1 "normal" None None
                     (Some (Mask.mk "data:m" false)) None)
                  (Mask.mk "data:m" false)
                  eq_refl eq_refl H eq_refl eq_refl eq_refl)).
Defined.

(** X14.  [clearSelectionWithHistory] with a selection rectangle records one
    command, takes the rectangle off the canvas and reports "no selection";
    a second call right after does nothing.  Undoing it puts the rectangle
    back on top of the canvas and makes it the current rectangle again, but
    the reported selection data stays null. *)
Theorem clearSelection_undo (s : State) (sel : ObjId) :
  selectionRectRef (world s) = Some sel -> 1 <= maxHistorySize s ->
  let s1 := clearSelectionWithHistory s in
  last (undoStack s1) = Some (ClearSelectionAction sel)
  /\ selectionRectRef (world s1) = None
  /\ selection (world s1) = None
  /\ objects (world s1) = remove_first sel (objects (world s))
  /\ clearSelectionWithHistory s1 = s1
  /\ selectionRectRef (world (undo s1)) = Some sel
  /\ selection (world (undo s1)) = None
  /\ objects (world (undo s1)) = remove_first sel (objects (world s)) ++ [sel].
Proof.
  intros Hsel Hmax s1.
  assert (Hc : s1 = execute (ClearSelectionAction sel) s).
  { subst s1. unfold clearSelectionWithHistory. by rewrite Hsel. }
  rewrite Hc. clear Hc s1.
  split; [by apply execute_last|].
  split; [reflexivity|]. split; [reflexivity|]. split; [reflexivity|].
  split; [reflexivity|].
  rewrite (proj1 (undo_execute _ s Hmax)). repeat split.
Qed.

(** Clearing the selection of the sample document and undoing. *)
Lemma clearSelection_undo_witness :
  selectionRectRef (world selected_state) = Some 1%nat
  /\ 1 <= maxHistorySize selected_state
  /\ selectionRectRef
       (world (undo (clearSelectionWithHistory selected_state))) = Some 1%nat
  /\ selection (world (undo (clearSelectionWithHistory selected_state))) = None.
Proof.
  assert (H : 1 <= maxHistorySize selected_state) by (simpl; lia).
  split; [reflexivity|]. split; [exact H|].
  destruct (clearSelection_undo selected_state 1%nat eq_refl H)
    as (_ & _ & _ & _ & _ & H1 & H2 & _).
  split; [exact H1|exact H2].
Defined.

(** ** Canvas.tsx: dragging the selection rectangle *)

Lemma num_or_nonzero (a d : number) : a <> 0 -> num_or a d = a.
Proof. intros H. unfold num_or. destruct (Z.eqb_spec a 0); congruence. Qed.

(** The six fields read with their [||] defaults give back the object when
    its scale factors are not zero. *)
Lemma capture_geometry (sel : ObjId) (g : FabricObject.t) (w : World) :
  heap w !! sel = Some g ->
  FabricObject.scaleX g <> 0 -> FabricObject.scaleY g <> 0 ->
  FabricObject.mk
    (num_or (obj_get sel FabricObject.left w) 0)
    (num_or (obj_get sel FabricObject.top w) 0)
    (num_or (obj_get sel FabricObject.scaleX w) 1)
    (num_or (obj_get sel FabricObject.scaleY w) 1)
    (num_or (obj_get sel FabricObject.width w) 0)
    (num_or (obj_get sel FabricObject.height w) 0)
  = g.
Proof.
  intros Hg Hx Hy. unfold obj_get. rewrite Hg.
  rewrite !num_or_0, !num_or_nonzero by assumption. by destruct g.
Qed.

Lemma heap_obj_set (sel : ObjId) (g g' : FabricObject.t) (w : World) :
  heap w !! sel = Some g ->
  heap (obj_set sel (fun _ => g') w) !! sel = Some g'.
Proof.
  intros H. unfold obj_set. cbn [heap with_heap].
  by rewrite lookup_alter_eq, H.
Qed.

(** X15.  Moving or resizing the selection rectangle: pointer-down on the
    rectangle remembers its fields, and "object:modified" records one
    [ModifySelectionAction] from the remembered fields to the new ones and
    forgets the remembered fields.  [undo] then gives the rectangle its
    fields from before the drag and [redo] the new ones again.  This needs
    non-zero scale factors: a zero scale is read as 1. *)
Theorem selection_drag_undo (px py : number) (sel img : ObjId)
    (g g' : FabricObject.t) (e : Editor) :
  tool_draws (activeTool (world (st e))) = true ->
  getActiveImageObject (world (st e)) = Some img ->
  selectionRectRef (world (st e)) = Some sel ->
  heap (world (st e)) !! sel = Some g ->
  FabricObject.scaleX g <> 0 -> FabricObject.scaleY g <> 0 ->
  FabricObject.scaleX g' <> 0 -> FabricObject.scaleY g' <> 0 ->
  1 <= maxHistorySize (st e) ->
  let e1 := object_modified (Some sel)
              (fabric_transform sel g' (mouse_down px py (Some sel) e)) in
  last (undoStack (st e1)) = Some (ModifySelectionAction sel g g')
  /\ selectionBeforeModifyRef e1 = None
  /\ heap (world (st e1)) !! sel = Some g'
  /\ heap (world (undo (st e1))) !! sel = Some g
  /\ heap (world (redo (undo (st e1)))) !! sel = Some g'.
Proof.
  intros Htool Himg Hsel Hg Hx Hy Hx' Hy' Hmax e1.
  assert (Hdown : mouse_down px py (Some sel) e
                  = mkEditor (st e) (isDrawing e) (startX e) (startY e)
                      (tempSelection e) (Some g)).
  { unfold mouse_down. rewrite Htool, Himg, Hsel. cbn [negb].
    rewrite Nat.eqb_refl. by rewrite (capture_geometry sel g _ Hg Hx Hy). }
  assert (Hg2 : heap (obj_set sel (fun _ => g') (world (st e))) !! sel = Some g')
    by (eapply heap_obj_set; eauto).
  assert (He1 : st e1
                = execute (ModifySelectionAction sel g g')
                    (with_world (obj_set sel (fun _ => g') (world (st e))) (st e))
                /\ selectionBeforeModifyRef e1 = None).
  { subst e1. rewrite Hdown. unfold fabric_transform, object_modified.
    cbn [st with_st selectionBeforeModifyRef world with_world].
    change (selectionRectRef (obj_set sel (fun _ => g') (world (st e))))
      with (selectionRectRef (world (st e))).
    rewrite Hsel, Nat.eqb_refl.
    rewrite (capture_geometry sel g' _ Hg2 Hx' Hy'). split; reflexivity. }
  destruct He1 as [He1 Hb]. rewrite He1.
  set (s0 := with_world _ (st e)).
  assert (Hm0 : 1 <= maxHistorySize s0) by exact Hmax.
  assert (Hexec : heap (world (execute (ModifySelectionAction sel g g') s0)) !! sel
                  = Some g').
  { change (heap (world (execute (ModifySelectionAction sel g g') s0)))
      with (heap (obj_set sel (fun _ => g') (world s0))).
    eapply heap_obj_set. exact Hg2. }
  assert (Hundo : heap (world (undo (execute (ModifySelectionAction sel g g') s0)))
                  !! sel = Some g).
  { rewrite (proj1 (undo_execute _ s0 Hm0)).
    change (heap (undo_action (ModifySelectionAction sel g g')
                    (exec_action (ModifySelectionAction sel g g') (world s0))))
      with (heap (obj_set sel (fun _ => g)
                    (exec_action (ModifySelectionAction sel g g') (world s0)))).
    eapply heap_obj_set. exact Hexec. }
  split; [by apply execute_last|]. split; [exact Hb|].
  split; [exact Hexec|]. split; [exact Hundo|].
  pose proof (proj2 (undo_execute (ModifySelectionAction sel g g') s0 Hm0))
    as Hr.
  unfold redo. rewrite Hr. change (pop [ModifySelectionAction sel g g'])
    with (Some (ModifySelectionAction sel g g'), @nil Action).
  cbn [notifyChange world].
  change (heap (exec_action (ModifySelectionAction sel g g')
                  (world (undo (execute (ModifySelectionAction sel g g') s0)))))
    with (heap (obj_set sel (fun _ => g')
                  (world (undo (execute (ModifySelectionAction sel g g') s0))))).
  eapply heap_obj_set. exact Hundo.
Qed.

(** The selection of the sample document dragged to (120,70) and enlarged. *)
Lemma selection_drag_undo_witness :
  heap (world selected_state) !! 1%nat = Some (FabricObject.mk 100 50 1 1 400 300)
  /\ heap (world (undo (st (object_modified (Some 1%nat)
                              (fabric_transform 1%nat
                                 (FabricObject.mk 120 70 2 1 400 300)
                                 (mouse_down 150 80 (Some 1%nat)
                                    (mkEditor selected_state false 0 0 None None)))))))
       !! 1%nat
     = Some (FabricObject.mk 100 50 1 1 400 300).
Proof.
  assert (Hg : heap (world selected_state) !! 1%nat
               = Some (FabricObject.mk 100 50 1 1 400 300))
    by (vm_compute; reflexivity).
  split; [exact Hg|].
  assert (Hi : getActiveImageObject (world selected_state) = Some 0%nat)
    by (vm_compute; reflexivity).
  assert (Hm : 1 <= maxHistorySize selected_state) by (simpl; lia).
  destruct (selection_drag_undo 150 80 1%nat 0%nat
              (FabricObject.mk 100 50 1 1 400 300)
              (FabricObject.mk 120 70 2 1 400 300)
              (mkEditor selected_state false 0 0 None None)
              eq_refl Hi eq_refl Hg) as (_ & _ & _ & H & _);
    [simpl; lia..|exact Hm|exact H].
Defined.

(** ** Selection gestures, continued *)

Lemma mouse_move_gesture (px py : number) (e : Editor) :
  isDrawing (mouse_move px py e) = isDrawing e
  /\ tempSelection (mouse_move px py e) = tempSelection e
  /\ startX (mouse_move px py e) = startX e
  /\ startY (mouse_move px py e) = startY e.
Proof.
  unfold mouse_move. destruct e as [s d sx sy [t|] b]; destruct d;
    cbn [isDrawing tempSelection startX startY]; auto.
  destruct (px - sx <? 0), (py - sy <? 0); auto.
Qed.

(** While drawing, the rectangle's corner never lies right of or below the
    anchor. *)
Lemma mouse_moves_corner (ps : list (number * number)) (e : Editor)
    (rect : ObjId) (g : FabricObject.t) :
  isDrawing e = true -> tempSelection e = Some rect ->
  heap (world (st e)) !! rect = Some g ->
  FabricObject.left g <= startX e -> FabricObject.top g <= startY e ->
  let e' := mouse_moves ps e in
  isDrawing e' = true /\ tempSelection e' = Some rect
  /\ startX e' = startX e /\ startY e' = startY e
  /\ exists g', heap (world (st e')) !! rect = Some g'
                /\ FabricObject.left g' <= startX e
                /\ FabricObject.top g' <= startY e
                /\ FabricObject.scaleX g' = FabricObject.scaleX g
                /\ FabricObject.scaleY g' = FabricObject.scaleY g.
Proof.
  revert e g. induction ps as [|[px py] ps IH]; intros e g Hd Ht Hg Hl Htop; simpl.
  - repeat split; eauto 10.
  - destruct (mouse_move_gesture px py e) as (H1 & H2 & H3 & H4).
    pose proof (mouse_move_rect px py e rect g Hd Ht Hg) as Hg'.
    specialize (IH (mouse_move px py e) _ (eq_trans H1 Hd) (eq_trans H2 Ht) Hg').
    cbn [FabricObject.left FabricObject.top FabricObject.scaleX
           FabricObject.scaleY] in IH.
    rewrite H3, H4 in IH. apply IH.
    + destruct (Z.ltb_spec px (startX e)); lia.
    + destruct (Z.ltb_spec py (startY e)); lia.
Qed.

(** X16.  While a rectangle is being drawn, after any run of pointer moves
    that ends at (px,py): the rectangle's width and height are the
    distances |px - startX| and |py - startY|; its left edge is at or left
    of min(startX, px) and its top edge at or above min(startY, py); the
    left edge is exactly px when the pointer is left of the anchor, and
    likewise for the top edge; the scale factors are untouched. *)
Theorem moves_size_and_corner (ps : list (number * number)) (px py : number)
    (e : Editor) (rect : ObjId) (g : FabricObject.t) :
  isDrawing e = true -> tempSelection e = Some rect ->
  heap (world (st e)) !! rect = Some g ->
  FabricObject.left g <= startX e -> FabricObject.top g <= startY e ->
  exists g',
    heap (world (st (mouse_move px py (mouse_moves ps e)))) !! rect = Some g'
    /\ FabricObject.width g' = Z.abs (px - startX e)
    /\ FabricObject.height g' = Z.abs (py - startY e)
    /\ FabricObject.left g' <= Z.min (startX e) px
    /\ FabricObject.top g' <= Z.min (startY e) py
    /\ (px < startX e -> FabricObject.left g' = px)
    /\ (py < startY e -> FabricObject.top g' = py)
    /\ FabricObject.scaleX g' = FabricObject.scaleX g
    /\ FabricObject.scaleY g' = FabricObject.scaleY g.
Proof.
  intros Hd Ht Hg Hl Htop.
  destruct (mouse_moves_corner ps e rect g Hd Ht Hg Hl Htop)
    as (Hd' & Ht' & Hx & Hy & g1 & Hg1 & Hl1 & Ht1 & Hsx & Hsy).
  pose proof (mouse_move_rect px py _ rect g1 Hd' Ht' Hg1) as Hm.
  rewrite Hx, Hy in Hm. eexists. split; [exact Hm|].
  cbn [FabricObject.left FabricObject.top FabricObject.scaleX
         FabricObject.scaleY FabricObject.width FabricObject.height].
  split; [reflexivity|]. split; [reflexivity|].
  destruct (Z.ltb_spec px (startX e)), (Z.ltb_spec py (startY e));
    repeat split; try lia; assumption.
Qed.

(** The drag to (90,90) and then (120,120) of the anchor (100,100): the
    rectangle is 20 by 20 and starts at or before the anchor. *)
Lemma moves_size_and_corner_witness :
  isDrawing (mouse_down 100 100 None fresh_editor) = true
  /\ tempSelection (mouse_down 100 100 None fresh_editor) = Some 1%nat
  /\ exists g',
       heap (world (st drag_back)) !! 1%nat = Some g'
       /\ FabricObject.width g' = 20 /\ FabricObject.height g' = 20
       /\ FabricObject.left g' <= 100.
Proof.
  split; [reflexivity|]. split; [reflexivity|].
  destruct (moves_size_and_corner [(90, 90)] 120 120
              (mouse_down 100 100 None fresh_editor) 1%nat
              (FabricObject.mk 100 100 1 1 0 0) eq_refl eq_refl)
    as (g' & Hg' & Hw & Hh & Hl & _).
  - vm_compute. reflexivity.
  - vm_compute. discriminate.
  - vm_compute. discriminate.
  - exists g'. split; [exact Hg'|]. split; [exact Hw|]. split; [exact Hh|].
    exact Hl.
Defined.

(** Behind the gate, each handler returns at once. *)
Lemma gated_event_ignored (ev : CanvasEvent) (e : Editor) :
  isDrawing e = false -> selectionBeforeModifyRef e = None ->
  tool_draws (activeTool (world (st e))) = false
  \/ getActiveImageObject (world (st e)) = None ->
  match ev with Transform _ _ => True | _ => canvas_event e ev = e end.
Proof.
  intros Hd Hb Hgate. destruct ev as [px py target|px py| |o g|target]; simpl.
  - unfold mouse_down. destruct Hgate as [->| ->]; simpl; [reflexivity|].
    by destruct (negb _).
  - unfold mouse_move. by rewrite Hd.
  - unfold mouse_up. by rewrite Hd.
  - exact I.
  - unfold object_modified. rewrite Hb.
    by destruct target, (selectionRectRef (world (st e))).
Qed.

(** X17.  Under the move tool, or with no image bound to the active layer,
    the handlers of the selection controller do nothing.  Starting from an
    editor that is not drawing and has no drag of the selection rectangle
    pending, any sequence of mouse events, of moves and scalings that fabric
    applies to the objects it drags, and of "object:modified" events leaves
    the editor as fabric's own transforms alone leave it: nothing is
    recorded in the history, no object enters or leaves the canvas, the
    selection rectangle stays the same object, and no drawing starts.  Only
    the fields of the dragged objects change, by fabric's hand. *)
Theorem pointer_events_gated (evs : list CanvasEvent) (e : Editor) :
  isDrawing e = false -> selectionBeforeModifyRef e = None ->
  tool_draws (activeTool (world (st e))) = false
  \/ getActiveImageObject (world (st e)) = None ->
  canvas_events evs e = canvas_events (transforms_of evs) e
  /\ undoStack (st (canvas_events evs e)) = undoStack (st e)
  /\ redoStack (st (canvas_events evs e)) = redoStack (st e)
  /\ objects (world (st (canvas_events evs e))) = objects (world (st e))
  /\ selectionRectRef (world (st (canvas_events evs e)))
     = selectionRectRef (world (st e))
  /\ isDrawing (canvas_events evs e) = false
  /\ tempSelection (canvas_events evs e) = tempSelection e.
Proof.
  revert e. induction evs as [|ev evs IH]; intros e Hd Hb Hgate.
  - repeat split; auto.
  - pose proof (gated_event_ignored ev e Hd Hb Hgate) as Hev.
    unfold canvas_events in *. cbn [fold_left].
    destruct ev as [px py target|px py| |o g|target];
      try (rewrite Hev; cbn [transforms_of]; by apply IH).
    cbn [transforms_of fold_left].
    destruct (IH (canvas_event e (Transform o g)) Hd Hb Hgate)
      as (H1 & H2 & H3 & H4 & H5 & H6 & H7).
    repeat split; assumption.
Qed.

(** An image dragged to (50,50) under the move tool. *)
Lemma pointer_events_gated_witness :
  isDrawing (mkEditor (new_HistoryManager 50 hidden_mask_world) false 0 0
               None None) = false
  /\ activeTool hidden_mask_world = ToolMove
  /\ canvas_events
       [MouseDown 10 10 (Some 0%nat);
        Transform 0%nat (FabricObject.mk 50 50 1 1 1000 800);
        MouseMove 60 60; MouseUp; ObjectModified (Some 0%nat)]
       (mkEditor (new_HistoryManager 50 hidden_mask_world) false 0 0 None None)
     = fabric_transform 0%nat (FabricObject.mk 50 50 1 1 1000 800)
         (mkEditor (new_HistoryManager 50 hidden_mask_world) false 0 0
            None None).
Proof.
  split; [reflexivity|]. split; [reflexivity|].
  apply (pointer_events_gated
           [MouseDown 10 10 (Some 0%nat);
            Transform 0%nat (FabricObject.mk 50 50 1 1 1000 800);
            MouseMove 60 60; MouseUp; ObjectModified (Some 0%nat)]
           (mkEditor (new_HistoryManager 50 hidden_mask_world) false 0 0
              None None) eq_refl eq_refl).
  left. reflexivity.
Defined.

Lemma mouse_down_redraw (x y : number) (target : option ObjId) (old img : ObjId)
    (e : Editor) :
  tool_draws (activeTool (world (st e))) = true ->
  getActiveImageObject (world (st e)) = Some img ->
  selectionRectRef (world (st e)) = Some old ->
  target <> Some old ->
  mouse_down x y target e
  = mkEditor (with_world (redraw_world x y old (world (st e))) (st e)) true x y
      (Some (nextId (world (st e)))) (selectionBeforeModifyRef e).
Proof.
  intros Htool Himg Hsel Htarget. unfold mouse_down.
  rewrite Htool, Himg, Hsel. cbn [negb].
  assert (Hhit : match target with
                 | Some t => if Nat.eqb t old then Some old else None
                 | None => None
                 end = None).
  { destruct target as [t|]; [|reflexivity].
    destruct (Nat.eqb_spec t old); [congruence|reflexivity]. }
  rewrite Hhit. reflexivity.
Qed.

Lemma mouse_move_state (px py : number) (e : Editor) :
  exists h,
    st (mouse_move px py e) = with_world (with_heap h (world (st e))) (st e).
Proof.
  unfold mouse_move. destruct (isDrawing e), (tempSelection e) as [rect|];
    try (exists (heap (world (st e))); destruct e as [[[] ? ? ? ?] ? ? ? ? ?];
         reflexivity).
  destruct (px - startX e <? 0), (py - startY e <? 0);
    eexists; unfold obj_set; reflexivity.
Qed.

Lemma mouse_up_commit (e : Editor) (rect : ObjId) :
  isDrawing e = true -> tempSelection e = Some rect ->
  5 <= obj_get rect FabricObject.width (world (st e)) ->
  5 <= obj_get rect FabricObject.height (world (st e)) ->
  st (mouse_up e)
  = execute (CreateSelectionAction rect None)
      (with_world
         (canvas_remove rect
            (with_selectionRectRef (Some rect) (world (st e)))) (st e)).
Proof.
  intros Hd Ht Hw Hh. unfold mouse_up. rewrite Hd, Ht, !num_or_0.
  destruct (Z.ltb_spec (obj_get rect FabricObject.width (world (st e))) 5);
    [lia|].
  destruct (Z.ltb_spec (obj_get rect FabricObject.height (world (st e))) 5);
    [lia|].
  reflexivity.
Qed.

(** X18.  Drawing a new selection while another one exists.  Pointer-down
    takes the old rectangle off the canvas without recording anything; the
    completed drag (at least 5 by 5) records one [CreateSelectionAction]
    that knows no previous selection.  Undoing it therefore leaves no
    selection at all: the old rectangle does not come back. *)
Theorem redraw_forgets_selection (x y px py : number) (target : option ObjId)
    (old img : ObjId) (e : Editor) :
  tool_draws (activeTool (world (st e))) = true ->
  getActiveImageObject (world (st e)) = Some img ->
  selectionRectRef (world (st e)) = Some old ->
  target <> Some old ->
  ~ In (nextId (world (st e))) (objects (world (st e))) ->
  5 <= Z.abs (px - x) -> 5 <= Z.abs (py - y) ->
  1 <= maxHistorySize (st e) ->
  let e1 := mouse_down x y target e in
  let e3 := mouse_up (mouse_move px py e1) in
  undoStack (st e1) = undoStack (st e)
  /\ objects (world (st e1))
     = remove_first old (objects (world (st e))) ++ [nextId (world (st e))]
  /\ last (undoStack (st e3))
     = Some (CreateSelectionAction (nextId (world (st e))) None)
  /\ selectionRectRef (world (st e3)) = Some (nextId (world (st e)))
  /\ selectionRectRef (world (undo (st e3))) = None
  /\ objects (world (undo (st e3))) = remove_first old (objects (world (st e))).
Proof.
  intros Htool Himg Hsel Htarget Hfresh Hw Hh Hmax e1 e3.
  set (w := world (st e)) in *. set (rect := nextId w) in *.
  assert (He1 : e1 = mkEditor (with_world (redraw_world x y old w) (st e)) true
                       x y (Some rect) (selectionBeforeModifyRef e)).
  { subst e1. by eapply mouse_down_redraw. }
  assert (Hobj1 : objects (world (st e1)) = remove_first old (objects w) ++ [rect]).
  { rewrite He1. reflexivity. }
  assert (Hg1 : heap (world (st e1)) !! rect = Some (FabricObject.mk x y 1 1 0 0)).
  { rewrite He1. cbn [st world with_world]. unfold redraw_world.
    cbn [heap canvas_add with_objects with_nextId with_heap].
    apply lookup_insert_eq. }
  assert (Hd1 : isDrawing e1 = true) by (rewrite He1; reflexivity).
  assert (Ht1 : tempSelection e1 = Some rect) by (rewrite He1; reflexivity).
  assert (Hsx : startX e1 = x) by (rewrite He1; reflexivity).
  assert (Hsy : startY e1 = y) by (rewrite He1; reflexivity).
  set (e2 := mouse_move px py e1) in *.
  pose proof (mouse_move_rect px py e1 rect _ Hd1 Ht1 Hg1) as Hg2.
  fold e2 in Hg2. rewrite Hsx, Hsy in Hg2.
  destruct (mouse_move_gesture px py e1) as (Hd2 & Ht2 & _ & _).
  fold e2 in Hd2, Ht2. rewrite Hd1 in Hd2. rewrite Ht1 in Ht2.
  destruct (mouse_move_state px py e1) as [h Hst2]. fold e2 in Hst2.
  assert (Hcommit := mouse_up_commit e2 rect Hd2 Ht2).
  unfold obj_get in Hcommit. rewrite Hg2 in Hcommit.
  specialize (Hcommit Hw Hh). fold e3 in Hcommit.
  set (s2 := with_world _ (st e2)) in Hcommit.
  assert (Hm2 : 1 <= maxHistorySize s2).
  { subst s2. rewrite Hst2, He1. exact Hmax. }
  assert (Hobj2 : objects (world s2) = remove_first old (objects w)).
  { subst s2. rewrite Hst2.
    change (objects (world (with_world _ _)))
      with (remove_first rect (objects (world (st e1)))).
    rewrite Hobj1. apply remove_first_snoc.
    intros Hin. apply Hfresh. eapply remove_first_In. exact Hin. }
  split; [rewrite He1; reflexivity|]. split; [exact Hobj1|].
  rewrite Hcommit.
  split; [by apply execute_last|]. split; [reflexivity|].
  rewrite (proj1 (undo_execute _ s2 Hm2)). split; [reflexivity|].
  change (objects (undo_action (CreateSelectionAction rect None)
                     (exec_action (CreateSelectionAction rect None) (world s2))))
    with (remove_first rect (push (objects (world s2)) rect)).
  rewrite Hobj2. apply remove_first_push.
  intros Hin. apply Hfresh. eapply remove_first_In. exact Hin.
Qed.

(** On the sample document with its selection 1: a new 40-by-40 drag, then
    undo. *)
Lemma redraw_forgets_selection_witness :
  selectionRectRef
    (world (st (mkEditor selected_state false 0 0 None None))) = Some 1%nat
  /\ selectionRectRef
       (world (undo (st (mouse_up (mouse_move 50 50
                                     (mouse_down 10 10 None
                                        (mkEditor selected_state false 0 0
                                           None None)))))))
     = None.
Proof.
  split; [reflexivity|].
  assert (Hi : getActiveImageObject (world selected_state) = Some 0%nat)
    by (vm_compute; reflexivity).
  assert (Hf : ~ In 2%nat [0%nat; 1%nat]).
  { intros [H|[H|[]]]; discriminate H. }
  destruct (redraw_forgets_selection 10 10 50 50 None 1%nat 0%nat
              (mkEditor selected_state false 0 0 None None)
              eq_refl Hi eq_refl) as (_ & _ & _ & _ & H & _);
    [discriminate|exact Hf|simpl; lia..|exact H].
Defined.

(** ** Crop, continued *)

Lemma getActiveImageObject_bound (a : string) (img : ObjId) (w : World) :
  activeLayerId w = Some a -> truthy_str (Some a) = true ->
  layerMap w !! a = Some img ->
  getActiveImageObject w = Some img.
Proof.
  intros Ha Ht Hm. unfold getActiveImageObject. by rewrite Ha, Ht.
Qed.

Lemma crop_with_image (width height x y : number) (s : State) (sel prev : ObjId) :
  selectionRectRef (world s) = Some sel -> 0 < width -> 0 < height ->
  getActiveImageObject (world s) = Some prev ->
  crop width height x y s
  = execute (CropAction (crop_command width height x y s sel))
      (with_world (crop_prepared width height x y (world s)) s).
Proof.
  intros Hsel Hw Hh Himg. unfold crop. rewrite Hsel.
  destruct (Z.leb_spec width 0); [lia|]. destruct (Z.leb_spec height 0); [lia|].
  simpl orb. cbv iota. unfold crop_command, crop_prepared.
  rewrite Himg. reflexivity.
Qed.

Lemma crop_without_image (width height x y : number) (s : State) (sel : ObjId) :
  selectionRectRef (world s) = Some sel -> 0 < width -> 0 < height ->
  getActiveImageObject (world s) = None ->
  crop width height x y s
  = execute (CropAction (crop_command width height x y s sel))
      (with_world (with_selectionRectRef None (world s)) s).
Proof.
  intros Hsel Hw Hh Himg. unfold crop. rewrite Hsel.
  destruct (Z.leb_spec width 0); [lia|]. destruct (Z.leb_spec height 0); [lia|].
  simpl orb. cbv iota. unfold crop_command.
  rewrite Himg. reflexivity.
Qed.

(** X19.  A valid crop with an image bound to the active layer swaps that
    image for a new one holding the cropped pixels: the new image has the
    crop rectangle's position and size, it is on top of the canvas in place
    of the old image and of the selection rectangle, and the layer is bound
    to it.  [undo] binds the layer to the old image again, puts the old
    image and then the selection rectangle on top of the canvas, and makes
    the rectangle the current selection again. *)
Theorem crop_swaps_image (width height x y : number) (s : State)
    (sel prev : ObjId) (a : string) :
  selectionRectRef (world s) = Some sel -> 0 < width -> 0 < height ->
  activeLayerId (world s) = Some a -> truthy_str (Some a) = true ->
  layerMap (world s) !! a = Some prev ->
  1 <= maxHistorySize s ->
  let new := nextId (world s) in
  let s1 := crop width height x y s in
  layerMap (world s1) !! a = Some new
  /\ heap (world s1) !! new = Some (FabricObject.mk x y 1 1 width height)
  /\ objects (world s1)
     = remove_first prev (remove_first sel (objects (world s))) ++ [new]
  /\ selectionRectRef (world s1) = None
  /\ layerMap (world (undo s1)) !! a = Some prev
  /\ objects (world (undo s1))
     = remove_first new (objects (world s1)) ++ [prev; sel]
  /\ selectionRectRef (world (undo s1)) = Some sel.
Proof.
  intros Hsel Hw Hh Ha Ht Hmap Hmax new s1.
  pose proof (getActiveImageObject_bound a prev _ Ha Ht Hmap) as Himg.
  assert (Hc := crop_with_image width height x y s sel prev Hsel Hw Hh Himg).
  fold s1 in Hc.
  set (c := crop_command width height x y s sel) in *.
  assert (Hp : CropAction.previousImage c = Some prev).
  { subst c. unfold crop_command. cbn [CropAction.previousImage]. exact Himg. }
  assert (Hn : CropAction.newImage c = Some new).
  { subst c. unfold crop_command. cbn [CropAction.newImage]. by rewrite Himg. }
  assert (Hl : CropAction.activeLayerId c = Some a).
  { subst c. unfold crop_command. cbn [CropAction.activeLayerId]. exact Ha. }
  assert (Hs : CropAction.selection c = sel) by reflexivity.
  set (s0 := with_world (crop_prepared width height x y (world s)) s) in *.
  assert (Hm0 : 1 <= maxHistorySize s0) by exact Hmax.
  assert (Hw1 : world s1
                = with_layerMap (<[a := new]> (layerMap (world s0)))
                    (canvas_add new
                       (canvas_remove prev
                          (handleSelectionChangeInternal None None
                             (canvas_remove sel (world s0)))))).
  { rewrite Hc. change (world (execute (CropAction c) s0))
      with (exec_action (CropAction c) (world s0)).
    cbn [exec_action]. rewrite Hp, Hn, Hl, Hs. unfold crop_swap. by rewrite Ht. }
  assert (Hu : world (undo s1)
               = undo_action (CropAction c) (world s1)).
  { rewrite Hc. rewrite (proj1 (undo_execute _ s0 Hm0)). reflexivity. }
  split; [rewrite Hw1; cbn [layerMap with_layerMap]; apply lookup_insert_eq|].
  split.
  { rewrite Hw1. change (heap (with_layerMap _ _))
      with (<[new := FabricObject.mk x y 1 1 width height]> (heap (world s))).
    apply lookup_insert_eq. }
  split; [rewrite Hw1; reflexivity|]. split; [rewrite Hw1; reflexivity|].
  rewrite Hu. cbn [undo_action]. rewrite Hp, Hn, Hl, Hs. unfold crop_swap.
  rewrite Ht.
  split; [|split; [|reflexivity]].
  - cbn [layerMap with_layerMap handleSelectionChangeInternal with_selection
           with_selectionRectRef canvas_add with_objects].
    apply lookup_insert_eq.
  - cbn [objects with_layerMap handleSelectionChangeInternal with_selection
           with_selectionRectRef canvas_add canvas_remove with_objects].
    unfold push. by rewrite <- app_assoc.
Qed.

(** The crop of the sample document: layer "L1" is bound to the new image 2
    and, after undo, to image 0 again. *)
Lemma crop_swaps_image_witness :
  layerMap (world selected_state) !! "L1"%string = Some 0%nat
  /\ layerMap (world (crop 400 300 100 50 selected_state)) !! "L1"%string
     = Some 2%nat
  /\ layerMap (world (undo (crop 400 300 100 50 selected_state))) !! "L1"%string
     = Some 0%nat.
Proof.
  assert (Hm : layerMap (world selected_state) !! "L1"%string = Some 0%nat)
    by (vm_compute; reflexivity).
  assert (Hx : 1 <= maxHistorySize selected_state) by (simpl; lia).
  split; [exact Hm|].
  destruct (crop_swaps_image 400 300 100 50 selected_state 1%nat 0%nat "L1"
              eq_refl eq_refl eq_refl eq_refl eq_refl Hm Hx)
    as (H1 & _ & _ & _ & H2 & _).
  split; [exact H1|exact H2].
Defined.

(** X20.  A valid crop without an image bound to the active layer still
    records a command, but one without images: it only takes the selection
    rectangle off the canvas.  No object is created, no binding changes, and
    [undo] puts the rectangle back on top as the current selection. *)
Theorem crop_without_active_image (width height x y : number) (s : State)
    (sel : ObjId) :
  selectionRectRef (world s) = Some sel -> 0 < width -> 0 < height ->
  getActiveImageObject (world s) = None ->
  1 <= maxHistorySize s ->
  let s1 := crop width height x y s in
  (exists c, last (undoStack s1) = Some (CropAction c)
             /\ CropAction.previousImage c = None
             /\ CropAction.newImage c = None)
  /\ objects (world s1) = remove_first sel (objects (world s))
  /\ heap (world s1) = heap (world s)
  /\ nextId (world s1) = nextId (world s)
  /\ layerMap (world s1) = layerMap (world s)
  /\ selectionRectRef (world s1) = None
  /\ objects (world (undo s1)) = remove_first sel (objects (world s)) ++ [sel]
  /\ layerMap (world (undo s1)) = layerMap (world s)
  /\ selectionRectRef (world (undo s1)) = Some sel.
Proof.
  intros Hsel Hw Hh Himg Hmax s1.
  assert (Hc := crop_without_image width height x y s sel Hsel Hw Hh Himg).
  fold s1 in Hc.
  set (c := crop_command width height x y s sel) in *.
  assert (Hp : CropAction.previousImage c = None).
  { subst c. unfold crop_command. cbn [CropAction.previousImage]. exact Himg. }
  assert (Hn : CropAction.newImage c = None).
  { subst c. unfold crop_command. cbn [CropAction.newImage]. by rewrite Himg. }
  assert (Hs : CropAction.selection c = sel) by reflexivity.
  set (s0 := with_world (with_selectionRectRef None (world s)) s) in *.
  assert (Hm0 : 1 <= maxHistorySize s0) by exact Hmax.
  assert (Hw1 : world s1
                = handleSelectionChangeInternal None None
                    (canvas_remove sel (world s0))).
  { rewrite Hc. change (world (execute (CropAction c) s0))
      with (exec_action (CropAction c) (world s0)).
    cbn [exec_action]. rewrite Hp, Hs. reflexivity. }
  assert (Hu : world (undo s1) = undo_action (CropAction c) (world s1)).
  { rewrite Hc. rewrite (proj1 (undo_execute _ s0 Hm0)). reflexivity. }
  split.
  { exists c. split; [|split; assumption]. rewrite Hc. by apply execute_last. }
  rewrite Hu. cbn [undo_action]. rewrite Hn, Hs. unfold crop_swap.
  rewrite Hw1. repeat split.
Qed.

(** A crop on a canvas that holds only a selection rectangle. *)
Lemma crop_without_active_image_witness :
  getActiveImageObject (world unbound_selected_state) = None
  /\ objects (world (crop 400 300 100 50 unbound_selected_state)) = []
  /\ objects (world (undo (crop 400 300 100 50 unbound_selected_state)))
     = [1%nat].
Proof.
  assert (Hx : 1 <= maxHistorySize unbound_selected_state) by (simpl; lia).
  split; [reflexivity|].
  destruct (crop_without_active_image 400 300 100 50 unbound_selected_state
              1%nat eq_refl eq_refl eq_refl eq_refl Hx)
    as (_ & H1 & _ & _ & _ & _ & H2 & _).
  split; [exact H1|exact H2].
Defined.

(** ** Keyboard shortcuts *)

Lemma clearSelectionWithHistory_twice (s : State) :
  clearSelectionWithHistory (clearSelectionWithHistory s)
  = clearSelectionWithHistory s.
Proof.
  destruct (selectionRectRef (world s)) as [sel|] eqn:E.
  - assert (H : clearSelectionWithHistory s
                = execute (ClearSelectionAction sel) s).
    { unfold clearSelectionWithHistory. by rewrite E. }
    rewrite H. reflexivity.
  - assert (H : clearSelectionWithHistory s = s).
    { unfold clearSelectionWithHistory. by rewrite E. }
    by rewrite !H.
Qed.

(** X21.  One key press is handled by both window listeners.  So Ctrl+Z
    undoes two commands and Ctrl+Shift+Z redoes two, while Ctrl+Y redoes
    one; with the Meta key alone (no Ctrl), or with the focus in an input
    field, Z undoes one command.  Escape clears the selection once (the
    second listener finds none) and switches to the move tool. *)
Theorem key_press_runs_both_listeners (s : State) (meta shift : bool) :
  window_keydown (mkKeyEvent "z" true meta false false) s = undo (undo s)
  /\ window_keydown (mkKeyEvent "Z" true meta true false) s = redo (redo s)
  /\ window_keydown (mkKeyEvent "y" true meta shift false) s = redo s
  /\ window_keydown (mkKeyEvent "z" false true false false) s = undo s
  /\ window_keydown (mkKeyEvent "z" true meta false true) s = undo s
  /\ window_keydown (mkKeyEvent "Escape" false false false false) s
     = setActiveTool ToolMove (clearSelectionWithHistory s).
Proof.
  split; [reflexivity|]. split; [reflexivity|]. split; [reflexivity|].
  split; [reflexivity|]. split; [reflexivity|].
  unfold window_keydown.
  change (canvas_handleKeyDown (mkKeyEvent "Escape" false false false false) s)
    with (clearSelectionWithHistory s).
  change (page_handleKeyDown (mkKeyEvent "Escape" false false false false)
            (clearSelectionWithHistory s))
    with (setActiveTool ToolMove
            (clearSelectionWithHistory (clearSelectionWithHistory s))).
  by rewrite clearSelectionWithHistory_twice.
Qed.

(** ** Commands and the store *)

(** X22.  A mask command whose layer is gone is a silent no-op in both
    directions: once [removeLayer] has removed layer [a], executing or
    undoing a [SetMaskAction] or a [ToggleMaskAction] for [a] leaves the
    whole world unchanged, so the history stays replayable. *)
Theorem mask_commands_after_removeLayer (a : string) (old new : option string)
    (s : State) :
  let w := world (store_removeLayer a s) in
  exec_action (SetMaskAction a old new) w = w
  /\ undo_action (SetMaskAction a old new) w = w
  /\ exec_action (ToggleMaskAction a) w = w
  /\ undo_action (ToggleMaskAction a) w = w.
Proof.
  intros w.
  assert (Hno : ~ In a (layer_ids (layers w))).
  { subst w. unfold store_removeLayer, removeLayer.
    cbn [world with_world layers with_activeLayerId with_layers
           LayerState.layers LayerState.activeLayerId].
    unfold layer_ids. rewrite in_map_iff. intros (l & Hl & Hin).
    apply filter_In in Hin as [_ Hne]. apply negb_true_iff in Hne.
    apply string_eqb_false in Hne. congruence. }
  assert (Hset : forall d, setLayerMask a d (layers w) = layers w).
  { intros d. unfold setLayerMask. rewrite <- (map_id (layers w)) at 2.
    apply map_ext_in. intros l Hin. unfold setLayerMask1.
    destruct (string_eqb (Layer.id l) a) eqn:E; [|reflexivity].
    apply string_eqb_eq in E. exfalso. apply Hno. unfold layer_ids.
    apply in_map_iff. eauto. }
  assert (Htog : toggleLayerMask a (layers w) = layers w).
  { apply toggleLayerMask_no_target. unfold has_masked_target.
    apply not_true_is_false. intros H. apply existsb_exists in H as (l & Hin & Hl).
    apply andb_true_iff in Hl as [Hl _]. apply string_eqb_eq in Hl.
    apply Hno. unfold layer_ids. apply in_map_iff. eauto. }
  cbn [exec_action undo_action]. rewrite !Hset, Htog.
  subst w. repeat split.
Qed.

(** X23.  Undoing an [UploadImageAction] rebuilds the canvas from the two
    objects the command remembers: the previous image and, with it, the
    previous selection rectangle.  Every other object that was on the canvas
    before the upload is dropped; the command is reversible exactly on a
    canvas that held those remembered objects and nothing else. *)
Theorem upload_undo_rebuilds (previousImage previousSelection : option ObjId)
    (newImage : ObjId) (w : World) :
  let a := UploadImageAction previousImage previousSelection newImage in
  objects (exec_action a w) = [newImage]
  /\ objects (undo_action a (exec_action a w))
     = upload_restored previousImage previousSelection
  /\ (reversible a w
      <-> objects w = upload_restored previousImage previousSelection).
Proof.
  intros a. subst a. split; [reflexivity|].
  assert (H : objects (undo_action
                         (UploadImageAction previousImage previousSelection newImage)
                         (exec_action
                            (UploadImageAction previousImage previousSelection
                               newImage) w))
              = upload_restored previousImage previousSelection).
  { destruct previousImage, previousSelection; reflexivity. }
  split; [exact H|]. unfold reversible, doc. split.
  - intros E. apply doc_inv in E as (Ho & _). congruence.
  - intros E. rewrite H, E.
    destruct previousImage, previousSelection; reflexivity.
Qed.

Lemma layer_ids_map (f : Layer.t -> Layer.t) (ls : list Layer.t) :
  (forall l, Layer.id (f l) = Layer.id l) ->
  layer_ids (map f ls) = layer_ids ls.
Proof.
  intros H. unfold layer_ids. rewrite map_map. apply map_ext. exact H.
Qed.

Lemma store_ok_same_ids (ls : list Layer.t) (s : LayerState.t) :
  layer_ids ls = layer_ids (LayerState.layers s) ->
  store_ok s -> store_ok (with_store_layers ls s).
Proof.
  intros E [Hnd Hact]. unfold store_ok. cbn [LayerState.layers
    LayerState.activeLayerId with_store_layers]. by rewrite E.
Qed.

Lemma removeLayer_store_ok (id : string) (s : LayerState.t) :
  store_ok s -> store_ok (removeLayer id s).
Proof.
  intros [Hnd Hact]. unfold removeLayer, store_ok.
  cbn [LayerState.layers LayerState.activeLayerId].
  split; [by apply layer_ids_filter_NoDup|].
  destruct (LayerState.activeLayerId s) as [a|]; [|exact I].
  destruct (string_eqb a id) eqn:E.
  - destruct (List.filter _ (LayerState.layers s)) as [|l ls]; [exact I|].
    simpl. by left.
  - apply string_eqb_false in E. unfold layer_ids in *.
    apply in_map_iff in Hact as (l & Hl & Hlin). apply in_map_iff.
    exists l. split; [exact Hl|]. apply filter_In. split; [exact Hlin|].
    apply negb_true_iff, string_eqb_false. congruence.
Qed.

(** X24.  Every store action keeps the store well-formed (distinct layer
    ids, active id naming a layer) as long as its caller keeps to the
    rules: new ids are unused, updates leave the id alone, the layer made
    active exists and a reorder starts from an existing row.  In particular
    no such action corrupts the layer list. *)
Theorem store_step_ok (op : StoreOp) (s : LayerState.t) :
  store_ok s -> store_op_ok op s ->
  exists s', store_step op s = Some s' /\ store_ok s'.
Proof.
  intros Hok Hop. pose proof Hok as [Hnd Hact].
  destruct op as [d uuid|id|id u|[id|]|i j|id d|id|id k v|id t];
    cbn [store_step store_op_ok] in *.
  - eexists. split; [reflexivity|]. unfold addLayer, store_ok.
    cbn [snd LayerState.layers LayerState.activeLayerId layer_ids map Layer.id].
    split; [by apply NoDup_cons_iff|by left].
  - eexists. split; [reflexivity|].
    by apply removeLayer_store_ok.
  - eexists. split; [reflexivity|]. apply store_ok_same_ids; [|exact Hok].
    apply layer_ids_map. intros l.
    destruct (string_eqb (Layer.id l) id); [|reflexivity].
    unfold spread_updates. cbn [Layer.id]. by rewrite Hop.
  - eexists. split; [reflexivity|]. split; [exact Hnd|exact Hop].
  - eexists. split; [reflexivity|]. split; [exact Hnd|exact I].
  - unfold reorderLayers.
    rewrite splice_start_in_range by lia.
    destruct (lookup_lt_is_Some_2 (LayerState.layers s) (Z.to_nat i))
      as [x Hx]; [lia|].
    rewrite Hx. eexists. split; [reflexivity|].
    set (ls' := take _ _ ++ x :: drop _ _).
    assert (Hp : ls' ≡ₚ LayerState.layers s).
    { subst ls'. rewrite splice_insert_Permutation.
      symmetry. by apply delete_Permutation. }
    assert (Hpi : layer_ids ls' ≡ₚ layer_ids (LayerState.layers s)).
    { unfold layer_ids. by apply Permutation_map. }
    unfold store_ok. cbn [LayerState.layers LayerState.activeLayerId
                            with_store_layers].
    split.
    + eapply Permutation_NoDup; [symmetry; exact Hpi|exact Hnd].
    + destruct (LayerState.activeLayerId s) as [a|]; [|exact I].
      eapply Permutation_in; [symmetry; exact Hpi|exact Hact].
  - eexists. split; [reflexivity|]. apply store_ok_same_ids; [|exact Hok].
    apply layer_ids_map. intros l. apply setLayerMask1_id.
  - eexists. split; [reflexivity|]. apply store_ok_same_ids; [|exact Hok].
    apply layer_ids_map. intros l. apply toggleLayerMask1_id.
  - eexists. split; [reflexivity|]. apply store_ok_same_ids; [|exact Hok].
    apply layer_ids_map. intros l. by destruct (negb _).
  - eexists. split; [reflexivity|]. apply store_ok_same_ids; [|exact Hok].
    apply layer_ids_map. intros l. by destruct (string_eqb _ _).
Qed.

(** Dragging the first sample layer onto the second row keeps the sample
    store well-formed. *)
Lemma store_step_ok_witness :
  store_ok two_layer_store
  /\ store_op_ok (SReorderLayers 0 1) two_layer_store
  /\ exists s', store_step (SReorderLayers 0 1) two_layer_store = Some s'
                /\ store_ok s'.
Proof.
  assert (H : store_op_ok (SReorderLayers 0 1) two_layer_store)
    by (simpl; lia).
  split; [exact two_layer_store_ok|]. split; [exact H|].
  exact (store_step_ok (SReorderLayers 0 1) two_layer_store
           two_layer_store_ok H).
Defined.

(** ** History engine: clear *)

Lemma walk_empty (moves : list bool) (s : State) :
  undoStack s = [] -> redoStack s = [] -> walk moves s = s.
Proof.
  intros Hu Hr. induction moves as [|b moves IH]; [reflexivity|].
  unfold walk in *. simpl.
  assert (Hs : step s (if b then OpUndo else OpRedo) = s).
  { destruct b; simpl; [unfold undo; by rewrite Hu|unfold redo; by rewrite Hr]. }
  by rewrite Hs.
Qed.

(** X25.  [clear] forgets the whole history and nothing else: the world is
    untouched, one notification (false, false) is sent, [canUndo] and
    [canRedo] answer false, and from then on any sequence of [undo] and
    [redo] calls changes nothing. *)
Theorem clear_forgets (moves : list bool) (s : State) :
  world (clear s) = world s
  /\ historyEvents (clear s) = historyEvents s ++ [(false, false)]
  /\ canUndo (clear s) = false /\ canRedo (clear s) = false
  /\ walk moves (clear s) = clear s.
Proof.
  repeat split. by apply walk_empty.
Qed.

(** ** Commands: a selection that replaces another *)

(** X26.  A [CreateSelectionAction] that knows the previous selection
    rectangle swaps the two and is fully reversible when the previous
    rectangle is the topmost object: execute takes the previous rectangle
    off the canvas and puts the new one on top as the current selection;
    undo puts the previous rectangle back on top as the current selection,
    and the drawable graph, bindings and origin are as before. *)
Theorem create_selection_swaps (sel p : ObjId) (l : list ObjId) (w : World) :
  objects w = l ++ [p] -> ~ In p l -> ~ In sel (l ++ [p]) ->
  let a := CreateSelectionAction sel (Some p) in
  objects (exec_action a w) = l ++ [sel]
  /\ selectionRectRef (exec_action a w) = Some sel
  /\ objects (undo_action a (exec_action a w)) = l ++ [p]
  /\ selectionRectRef (undo_action a (exec_action a w)) = Some p
  /\ reversible a w.
Proof.
  intros Hobj Hp Hsel a. subst a.
  assert (Hsl : ~ In sel l).
  { intros Hin. apply Hsel. apply in_or_app. by left. }
  assert (H1 : objects (exec_action (CreateSelectionAction sel (Some p)) w)
               = l ++ [sel]).
  { change (objects (exec_action (CreateSelectionAction sel (Some p)) w))
      with (push (remove_first p (objects w)) sel).
    by rewrite Hobj, remove_first_snoc. }
  assert (H2 : objects (undo_action (CreateSelectionAction sel (Some p))
                          (exec_action (CreateSelectionAction sel (Some p)) w))
               = l ++ [p]).
  { change (objects (undo_action (CreateSelectionAction sel (Some p))
                       (exec_action (CreateSelectionAction sel (Some p)) w)))
      with (push (remove_first sel
                    (objects (exec_action (CreateSelectionAction sel (Some p)) w)))
              p).
    by rewrite H1, remove_first_snoc. }
  split; [exact H1|]. split; [reflexivity|]. split; [exact H2|].
  split; [reflexivity|].
  unfold reversible, doc. rewrite H2, Hobj. reflexivity.
Qed.

(** On the sample document: rectangle 5 replaces the selection 1. *)
Lemma create_selection_swaps_witness :
  objects selected_world = [0%nat] ++ [1%nat]
  /\ reversible (CreateSelectionAction 5%nat (Some 1%nat)) selected_world.
Proof.
  split; [reflexivity|].
  assert (H1 : ~ In 1%nat [0%nat]) by (intros [H|[]]; discriminate H).
  assert (H2 : ~ In 5%nat ([0%nat] ++ [1%nat])).
  { intros [H|[H|[]]]; discriminate H. }
  destruct (create_selection_swaps 5%nat 1%nat [0%nat] selected_world
              eq_refl H1 H2) as (_ & _ & _ & _ & H).
  exact H.
Defined.

(** ** Crop: round trip *)

(** X27.  Crop followed by undo, when the image bound to the active layer
    is the topmost image and the selection rectangle lies right above it:
    the canvas holds the same objects in the same order as before the crop,
    the layer bindings and the document origin are as before, and the only
    trace left is the cropped image, which stays allocated (off the canvas)
    for a later redo. *)
Theorem crop_undo_round_trip (width height x y : number) (s : State)
    (sel prev : ObjId) (a : string) (l : list ObjId) :
  selectionRectRef (world s) = Some sel -> 0 < width -> 0 < height ->
  activeLayerId (world s) = Some a -> truthy_str (Some a) = true ->
  layerMap (world s) !! a = Some prev ->
  1 <= maxHistorySize s ->
  objects (world s) = l ++ [prev; sel] ->
  ~ In sel (l ++ [prev]) -> ~ In prev l -> ~ In (nextId (world s)) l ->
  let s2 := undo (crop width height x y s) in
  objects (world s2) = objects (world s)
  /\ layerMap (world s2) = layerMap (world s)
  /\ documentOrigin (world s2) = documentOrigin (world s)
  /\ heap (world s2)
     = <[nextId (world s) := FabricObject.mk x y 1 1 width height]>
         (heap (world s))
  /\ selectionRectRef (world s2) = Some sel.
Proof.
  intros Hsel Hw Hh Ha Ht Hmap Hmax Hobj Hns Hnp Hnn s2.
  pose proof (getActiveImageObject_bound a prev _ Ha Ht Hmap) as Himg.
  assert (Hc := crop_with_image width height x y s sel prev Hsel Hw Hh Himg).
  set (c := crop_command width height x y s sel) in *.
  set (w0 := crop_prepared width height x y (world s)) in *.
  assert (Hm0 : 1 <= maxHistorySize (with_world w0 s)) by exact Hmax.
  assert (Hu : world s2 = undo_action (CropAction c) (exec_action (CropAction c) w0)).
  { subst s2. rewrite Hc. exact (proj1 (undo_execute _ _ Hm0)). }
  assert (Hrev : reversible (CropAction c) w0).
  { apply (reversible_Crop c prev (nextId (world s)) a l w0).
    - subst c. unfold crop_command. cbn [CropAction.previousImage]. exact Himg.
    - subst c. unfold crop_command. cbn [CropAction.newImage]. by rewrite Himg.
    - exact Ha.
    - exact Ht.
    - exact Hobj.
    - exact Hns.
    - exact Hnp.
    - exact Hnn.
    - exact Hmap. }
  unfold reversible in Hrev. rewrite <- Hu in Hrev.
  apply doc_inv in Hrev as (Ho & Hhp & Hl & Hd).
  split; [exact Ho|]. split; [exact Hl|]. split; [exact Hd|].
  split; [exact Hhp|].
  rewrite Hu. reflexivity.
Qed.

(** The crop of the sample document, undone. *)
Lemma crop_undo_round_trip_witness :
  objects (world selected_state) = [] ++ [0%nat; 1%nat]
  /\ objects (world (undo (crop 400 300 100 50 selected_state)))
     = objects (world selected_state)
  /\ layerMap (world (undo (crop 400 300 100 50 selected_state)))
     = layerMap (world selected_state).
Proof.
  split; [reflexivity|].
  assert (Hm : layerMap (world selected_state) !! "L1"%string = Some 0%nat)
    by (vm_compute; reflexivity).
  assert (Hx : 1 <= maxHistorySize selected_state) by (simpl; lia).
  assert (H1 : ~ In 1%nat ([] ++ [0%nat])) by (intros [H|[]]; discriminate H).
  destruct (crop_undo_round_trip 400 300 100 50 selected_state 1%nat 0%nat
              "L1" [] eq_refl eq_refl eq_refl eq_refl eq_refl Hm Hx eq_refl H1
              (fun H : In 0%nat [] => H) (fun H : In 2%nat [] => H))
    as (Ho & Hl & _).
  split; [exact Ho|exact Hl].
Defined.

(** ** Mask inversion *)











